(** * ing2qif: conversion of ING bank statements (CSV rows) to QIF records

    A shallow embedding of [ing2qif.py] and the verification of its
    transaction transformation: amount and date formatting, the
    category-dependent memo, record assembly, document serialization and the
    record window of the main loop.

    Modelling conventions.
    - A Python [str] is a [string]; a character is a code point below 256.
      Every marker the program looks for is plain ASCII.
    - A row produced by [csv.DictReader] is a dictionary from column names to
      strings: a [gmap string string].
    - Exceptions are values of [exn]; code that may raise returns a [result].
    - Python integers are [Z]; string positions and lengths, which the program
      only ever obtains from [str.index] or writes as non-negative literals,
      are [nat]. *)

From Stdlib Require Import ZArith Lia Ascii.
From stdpp Require Import gmap strings list.

(** ** Exceptions and results *)

Inductive exn : Type :=
  | KeyError (key : string)
  | ValueError
  | Exception_ (arg1 arg2 : string).

Inductive result (A : Type) : Type :=
  | Ok (a : A)
  | Raise (e : exn).

Arguments Ok {A} a.
Arguments Raise {A} e.

Definition bind {A B : Type} (r : result A) (k : A -> result B) : result B :=
  match r with
  | Ok a => k a
  | Raise e => Raise e
  end.

Notation "'let!' x ':=' r 'in' k" := (bind r (fun x => k))
  (at level 10, x pattern, r at level 100, k at level 200).

(** [try: body except ValueError: handler] *)
Definition except_ValueError {A : Type} (body handler : result A) : result A :=
  match body with
  | Raise ValueError => handler
  | r => r
  end.

(** [try: body except KeyError: handler] *)
Definition except_KeyError {A : Type} (body handler : result A) : result A :=
  match body with
  | Raise (KeyError _) => handler
  | r => r
  end.

Fixpoint mapM {A B : Type} (f : A -> result B) (l : list A) : result (list B) :=
  match l with
  | [] => Ok []
  | a :: l' =>
      let! b := f a in
      let! bs := mapM f l' in
      Ok (b :: bs)
  end.

(** ** Python string primitives *)

Module Str.

(** [s.startswith(p)] *)
Definition startswith (s p : string) : bool := String.prefix p s.

(** [s.find(sub)], with [None] for -1: the lowest position at which [sub]
    occurs in [s]. *)
Fixpoint find (sub s : string) : option nat :=
  if String.prefix sub s then Some 0
  else match s with
       | EmptyString => None
       | String _ s' => S <$> find sub s'
       end.

(** [s.index(sub)] *)
Definition index (s sub : string) : result nat :=
  match find sub s with
  | Some i => Ok i
  | None => Raise ValueError
  end.

(** [sub in s] *)
Definition contains (sub s : string) : bool :=
  match find sub s with
  | Some _ => true
  | None => false
  end.

(** [s[a:b]] for non-negative [a] and [b]; positions beyond the end are
    clamped and [b <= a] gives the empty string. *)
Definition slice (s : string) (a b : nat) : string :=
  String.substring a (b - a) s.

(** [s[:b]] *)
Definition upto (s : string) (b : nat) : string := slice s 0 b.

(** [s.replace(old, new)] for one-character [old] and [new]. *)
Fixpoint replace (old new : ascii) (s : string) : string :=
  match s with
  | EmptyString => EmptyString
  | String c s' =>
      String (if Ascii.eqb c old then new else c) (replace old new s')
  end.

(** [c.isspace()] on code points below 256: TAB, LF, VT, FF, CR, the four
    separators FS, GS, RS, US, the space, NEL and the no-break space. *)
Definition isspace (c : ascii) : bool :=
  match c with
  | "009" | "010" | "011" | "012" | "013"
  | "028" | "029" | "030" | "031" | " " | "133" | "160" => true
  | _ => false
  end%char.

Fixpoint lstrip (s : string) : string :=
  match s with
  | EmptyString => EmptyString
  | String c s' => if isspace c then lstrip s' else s
  end.

Fixpoint rstrip (s : string) : string :=
  match s with
  | EmptyString => EmptyString
  | String c s' =>
      match rstrip s' with
      | EmptyString => if isspace c then EmptyString else String c EmptyString
      | r => String c r
      end
  end.

(** [s.strip()] *)
Definition strip (s : string) : string := rstrip (lstrip s).

(** [sep.join(l)] *)
Fixpoint join (sep : string) (l : list string) : string :=
  match l with
  | [] => ""
  | [x] => x
  | x :: l' => x +:+ sep +:+ join sep l'
  end.

(** Truth value of a string in a condition. *)
Definition truthy (s : string) : bool :=
  match s with
  | EmptyString => false
  | String _ _ => true
  end.

End Str.

(** ** [Entry]: one row of the statement *)

Record Entry : Type := mkEntry { Entry_data : gmap string string }.

(** [Entry._clean_up] *)
Definition _clean_up (data : gmap string string) : result (gmap string string) :=
  match data !! "Bedrag (EUR)" with
  | Some bedrag => Ok (<["amount" := Str.replace "," "." bedrag]> data)
  | None => Raise (KeyError "Bedrag (EUR)")
  end.

(** [Entry.__init__] *)
Definition Entry_init (data : gmap string string) : result Entry :=
  let! data' := _clean_up data in
  Ok (mkEntry data').

(** [Entry.__getitem__]; the exception keeps the missing key, not the text of
    the message. *)
Definition getitem (self : Entry) (item : string) : result string :=
  match Entry_data self !! item with
  | None => Raise (KeyError item)
  | Some v => Ok v
  end.

(** [CsvEntries.__iter__] is [map(Entry, rows)], evaluated lazily: each row is
    wrapped when the loop of [main] reaches it. *)

(** ** [QifEntry]: the memo strategies *)

Definition _memo_geldautomaat (mededelingen omschrijving : string)
  : result (option string) :=
  if Str.startswith omschrijving "ING>"
     || Str.startswith omschrijving "ING BANK>"
     || Str.startswith omschrijving "OPL. CHIPKNIP"
  then Ok (Some omschrijving)
  else Ok (Some (Str.upto mededelingen 32)).

Definition _memo_incasso (mededelingen omschrijving : string)
  : result (option string) :=
  if Str.startswith omschrijving "SEPA Incasso"
     || Str.startswith mededelingen "SEPA Incasso"
  then
    except_ValueError
      (let! i := Str.index mededelingen "Naam: " in
       let s := i + 6 in
       let! e := Str.index mededelingen "Kenmerk: " in
       Ok (Some (Str.slice mededelingen s e)))
      (Raise (Exception_ mededelingen omschrijving))
  else Ok None.

Definition _memo_internetbankieren (mededelingen omschrijving : string)
  : result (option string) :=
  except_ValueError
    (let! i := Str.index mededelingen "Naam: " in
     let s := i + 6 in
     let! e := if Str.contains "Omschrijving:" mededelingen
               then Str.index mededelingen "Omschrijving: "
               else Str.index mededelingen "IBAN: " in
     Ok (Some (Str.slice mededelingen s e)))
    (Ok None).

Definition _memo_diversen (mededelingen omschrijving : string)
  : result (option string) :=
  Ok (Some (Str.upto mededelingen 64)).

Definition _memo_verzamelbetaling (mededelingen omschrijving : string)
  : result (option string) :=
  if Str.contains "Naam: " mededelingen then
    let! i := Str.index mededelingen "Naam: " in
    let s := i + 6 in
    let! e := Str.index mededelingen "Kenmerk: " in
    Ok (Some (Str.slice mededelingen s e))
  else Ok None.

(** A dictionary literal with string keys, and its subscript. *)
Fixpoint subscript {V : Type} (d : list (string * V)) (k : string) : result V :=
  match d with
  | [] => Raise (KeyError k)
  | (k', v) :: d' => if String.eqb k' k then Ok v else subscript d' k
  end.

Definition memo_strategy : Type := string -> string -> result (option string).

Definition memo_methods : list (string * memo_strategy) :=
  [ ("Diversen", _memo_diversen);
    ("Betaalautomaat", _memo_geldautomaat);
    ("Geldautomaat", _memo_geldautomaat);
    ("Incasso", _memo_incasso);
    ("Internetbankieren", _memo_internetbankieren);
    ("Overschrijving", _memo_internetbankieren);
    ("Verzamelbetaling", _memo_verzamelbetaling) ].

Definition entry_types : list (string * string) :=
  [ ("Geldautomaat", "ATM");
    ("Internetbankieren", "Transfer");
    ("Incasso", "Transfer");
    ("Verzamelbetaling", "Transfer");
    ("Betaalautomaat", "ATM");
    ("Storting", "Deposit") ].

(** [QifEntry._entry_type]: the [except KeyError] covers the subscript of the
    table and the lookup of the column alike. *)
Definition _entry_type (self : Entry) : result (option string) :=
  except_KeyError
    (let! soort := getitem self "Mutatiesoort" in
     let! label := subscript entry_types soort in
     Ok (Some label))
    (Ok None).

(** The default memo: all the text. *)
Definition default_memo (self : Entry) : result string :=
  let! mededelingen := getitem self "Mededelingen" in
  let! omschrijving := getitem self "Naam / Omschrijving" in
  Ok (mededelingen +:+ " " +:+ omschrijving).

(** The [try ... except KeyError ... finally] block of [QifEntry._memo]: the
    memo of the category strategy, or the default memo when there is no
    strategy or the strategy returns [None]. An exception of the strategy
    passes through the [finally] clause. *)
Definition resolve_memo (self : Entry) (mutatie_soort mededelingen omschrijving : string)
  : result string :=
  let! memo :=
    except_KeyError
      (let! memo_method := subscript memo_methods mutatie_soort in
       memo_method mededelingen omschrijving)
      (Ok None) in
  match memo with
  | None => default_memo self
  | Some memo => Ok memo
  end.

(** [QifEntry._memo] *)
Definition _memo (self : Entry) : result string :=
  let! mutatie_soort := getitem self "Mutatiesoort" in
  let! mededelingen := getitem self "Mededelingen" in
  let! omschrijving := getitem self "Naam / Omschrijving" in
  let! memo := resolve_memo self mutatie_soort mededelingen omschrijving in
  let! ty := _entry_type self in
  match ty with
  | Some label =>
      if Str.truthy label then Ok (label +:+ " " +:+ memo)
      else Ok (Str.strip memo)
  | None => Ok (Str.strip memo)
  end.

(** [QifEntry._amount_format] *)
Definition _amount_format (self : Entry) : result string :=
  let! af_bij := getitem self "Af Bij" in
  if String.eqb af_bij "Bij" then
    let! amount := getitem self "amount" in Ok ("+" +:+ amount)
  else
    let! amount := getitem self "amount" in Ok ("-" +:+ amount).

(** [QifEntry._date_format] *)
Definition _date_format (date_str : string) : string :=
  Str.slice date_str 6 8 +:+ "/" +:+ Str.slice date_str 4 6 +:+ "/"
  +:+ Str.slice date_str 0 4.

(** ** [QifEntry]: assembling the lines of one record *)

Record QifEntry : Type := mkQifEntry {
  QifEntry_entry : Entry;
  QifEntry_data : list string
}.

(** [QifEntry.processing]: appends the eight lines to [data]. *)
Definition processing (self : Entry) (data : list string) : result (list string) :=
  let! datum := getitem self "Datum" in
  let data := data ++ ["D" +:+ _date_format datum] in
  let! amount := _amount_format self in
  let data := data ++ ["T" +:+ amount] in
  let! amount := _amount_format self in
  let data := data ++ ["U" +:+ amount] in
  let! payee := getitem self "Naam / Omschrijving" in
  let data := data ++ ["P" +:+ payee] in
  let! memo := _memo self in
  let data := data ++ ["M" +:+ memo] in
  let data := data ++ ["Cc"] in
  let data := data ++ ["N"] in
  let data := data ++ ["^"] in
  Ok data.

(** [QifEntry.__init__] *)
Definition QifEntry_init (entry : Entry) : result QifEntry :=
  let! data := processing entry [] in
  Ok (mkQifEntry entry data).

(** [QifEntry.serialize] *)
Definition QifEntry_serialize (self : QifEntry) : string :=
  Str.join (String "010" "") (QifEntry_data self).

(** ** [QifEntries]: the document *)

Record QifEntries : Type := mkQifEntries { QifEntries_entries : list QifEntry }.

(** [QifEntries.__init__] *)
Definition QifEntries_init : QifEntries := mkQifEntries [].

(** [QifEntries.add_entry] *)
Definition add_entry (self : QifEntries) (entry : Entry) : result QifEntries :=
  let! q := QifEntry_init entry in
  Ok (mkQifEntries (QifEntries_entries self ++ [q])).

(** [QifEntries.serialize] *)
Definition serialize (self : QifEntries) : string :=
  let data := ["!Type:Bank"] in
  let data := fold_left (fun data e => data ++ [QifEntry_serialize e])
                        (QifEntries_entries self) data in
  Str.join (String "010" "") data.

(** ** [main]: the record window *)

(** Truth value of [number]: [None] and [0] are false. *)
Definition truthy_number (number : option Z) : bool :=
  match number with
  | None => false
  | Some n => negb (n =? 0)%Z
  end.

(** The [for] loop of [main], from the state reached with counter [c] and
    document [qif]; [rows] are the rows not yet read. The comparison with
    [number] is only evaluated when [number] is true. *)
Fixpoint main_loop (rows : list (gmap string string)) (start : Z)
    (number : option Z) (c : Z) (qif : QifEntries) : result QifEntries :=
  match rows with
  | [] => Ok qif
  | row :: rows' =>
      let! entry := Entry_init row in
      let c := (c + 1)%Z in
      if (c >=? start)%Z then
        let! qif := add_entry qif entry in
        if match number with
           | Some n => truthy_number number && (c >? start + n - 2)%Z
           | None => false
           end
        then Ok qif
        else main_loop rows' start number c qif
      else main_loop rows' start number c qif
  end.

(** [main], up to the text written to the output file. *)
Definition main (rows : list (gmap string string)) (start : Z)
    (number : option Z) : result string :=
  let! qif := main_loop rows start number 0 QifEntries_init in
  Ok (serialize qif).

(** [s.endswith(suffix)] *)
Definition endswith (s suffix : string) : bool :=
  String.eqb
    (String.substring (String.length s - String.length suffix)
                      (String.length suffix) s)
    suffix.

(** [s[:-n]] for a positive literal [n]. *)
Definition drop_last (s : string) (n : nat) : string :=
  Str.upto s (String.length s - n).

(** The name of the output file that [main] writes. *)
Definition output_file (input_filename : string) : string :=
  if endswith input_filename ".csv"
  then drop_last input_filename 4 +:+ ".qif"
  else input_filename +:+ ".qif".


(** * Specification vocabulary

    The notions in which the properties of the program are stated. None of
    them is used by the program itself. *)

(** ** Occurrences of a substring *)

(** [sub] occurs in [s] at position [i]. *)
Definition occurs_at (sub s : string) (i : nat) : Prop :=
  exists pre post, s = pre +:+ sub +:+ post /\ String.length pre = i.

(** [i] is the lowest position at which [sub] occurs in [s]. *)
Definition first_at (sub s : string) (i : nat) : Prop :=
  occurs_at sub s i /\ forall j, j < i -> ~ occurs_at sub s j.

Definition absent (sub s : string) : Prop := forall i, ~ occurs_at sub s i.

(** ** Whitespace at the ends of a string *)

Fixpoint all_space (s : string) : bool :=
  match s with
  | EmptyString => true
  | String c s' => Str.isspace c && all_space s'
  end.

Definition head (s : string) : option ascii :=
  match s with
  | EmptyString => None
  | String c _ => Some c
  end.

Fixpoint last (s : string) : option ascii :=
  match s with
  | EmptyString => None
  | String c EmptyString => Some c
  | String _ s' => last s'
  end.

(** Neither the first nor the last character of [s] is whitespace. *)
Definition trimmed (s : string) : Prop :=
  (forall c, head s = Some c -> Str.isspace c = false) /\
  (forall c, last s = Some c -> Str.isspace c = false).

(** ** Decimal numerals *)

Fixpoint occurs_char (c : ascii) (s : string) : bool :=
  match s with
  | EmptyString => false
  | String d s' => Ascii.eqb d c || occurs_char c s'
  end.

Definition is_digit (c : ascii) : bool :=
  match c with
  | "0" | "1" | "2" | "3" | "4" | "5" | "6" | "7" | "8" | "9" => true
  | _ => false
  end%char.

Fixpoint digits (s : string) : bool :=
  match s with
  | EmptyString => true
  | String c s' => is_digit c && digits s'
  end.

(** What may follow the first digit of a numeral: more digits, then nothing
    or the separator and at least one digit. *)
Fixpoint numeral_tail (sep : ascii) (s : string) : bool :=
  match s with
  | EmptyString => true
  | String c s' =>
      if is_digit c then numeral_tail sep s'
      else Ascii.eqb c sep && Str.truthy s' && digits s'
  end.

(** A decimal numeral with [sep] as its separator: one or more digits,
    optionally followed by [sep] and one or more digits. *)
Definition decimal_numeral (sep : ascii) (s : string) : bool :=
  match s with
  | EmptyString => false
  | String c s' => is_digit c && numeral_tail sep s'
  end.

(** ** The memo of a bank transfer *)

(** The position at which the memo ends as the specification words it:
    whichever of the two markers comes first. *)
Definition first_marker (notes : string) : option nat :=
  match Str.find "Omschrijving: " notes, Str.find "IBAN: " notes with
  | Some a, Some b => Some (Nat.min a b)
  | Some a, None => Some a
  | None, Some b => Some b
  | None, None => None
  end.

Definition spec_memo_internetbankieren (notes : string) : option string :=
  match Str.find "Naam: " notes, first_marker notes with
  | Some i, Some e => Some (Str.slice notes (i + 6) e)
  | _, _ => None
  end.

(** The memo as the program computes it: the end marker is "Omschrijving: "
    whenever the notes contain "Omschrijving:", and "IBAN: " otherwise. *)
Inductive internetbankieren_memo (notes : string) : option string -> Prop :=
  | ib_no_naam :
      absent "Naam: " notes ->
      internetbankieren_memo notes None
  | ib_omschrijving (s e : nat) :
      first_at "Naam: " notes s ->
      first_at "Omschrijving: " notes e ->
      internetbankieren_memo notes (Some (Str.slice notes (s + 6) e))
  | ib_iban (s e : nat) :
      first_at "Naam: " notes s ->
      absent "Omschrijving:" notes ->
      first_at "IBAN: " notes e ->
      internetbankieren_memo notes (Some (Str.slice notes (s + 6) e))
  | ib_no_omschrijving (s i : nat) :
      first_at "Naam: " notes s ->
      occurs_at "Omschrijving:" notes i ->
      absent "Omschrijving: " notes ->
      internetbankieren_memo notes None
  | ib_no_iban (s : nat) :
      first_at "Naam: " notes s ->
      absent "Omschrijving:" notes ->
      absent "IBAN: " notes ->
      internetbankieren_memo notes None.

(** ** Lines and blocks of the document *)

Definition nl : string := String "010" "".

Fixpoint prepend_all (sep : string) (l : list string) : string :=
  match l with
  | [] => ""
  | x :: l' => sep +:+ x +:+ prepend_all sep l'
  end.

(** The text of a record block whose last line is a lone "^". *)
Definition terminated (block : string) : Prop :=
  exists body, block = body +:+ nl +:+ "^".

(** A record built by [QifEntry.__init__] from its own entry. *)
Definition built (q : QifEntry) : Prop :=
  QifEntry_init (QifEntry_entry q) = Ok q.

(** ** The record window *)

(** Wrapping a row and building its record, as one step. *)
Definition convert (row : gmap string string) : result QifEntry :=
  let! entry := Entry_init row in
  QifEntry_init entry.

(** The records at positions [N] to [N + M - 1], counted from 1. *)
Definition window {A : Type} (l : list A) (N M : Z) : list A :=
  take (Z.to_nat M) (drop (Z.to_nat (N - 1)) l).

(** The records at positions [N] and later. *)
Definition from_position {A : Type} (l : list A) (N : Z) : list A :=
  drop (Z.to_nat (N - 1)) l.

(** What the loop of [main] does when it reads the rows before position [N]
    and adds the rows [selected] to the document. *)
Definition selects (rows : list (gmap string string)) (N : Z)
    (selected : list (gmap string string)) (qif : QifEntries)
  : result QifEntries :=
  let! _ := mapM Entry_init (take (Z.to_nat (N - 1)) rows) in
  let! added := mapM convert selected in
  Ok (mkQifEntries (QifEntries_entries qif ++ added)).

(** The window as the specification words it, for a start [N] and a given
    count [M]. *)
Definition window_claim (rows : list (gmap string string)) (N M : Z) : Prop :=
  main_loop rows N (Some M) 0 QifEntries_init
  = selects rows N (window rows N M) QifEntries_init.

(** ** Rows that convert without an exception *)





(** The sign that [_amount_format] puts before the amount. *)
Definition sign_of (af_bij : string) : string :=
  if String.eqb af_bij "Bij" then "+" else "-".

(** ** Sample rows *)

(** A row with the six columns the program reads. *)
Definition row (datum af_bij bedrag soort mededelingen naam : string)
  : gmap string string :=
  list_to_map
    [ ("Datum", datum); ("Naam / Omschrijving", naam); ("Af Bij", af_bij);
      ("Bedrag (EUR)", bedrag); ("Mutatiesoort", soort);
      ("Mededelingen", mededelingen) ].

(** The entry of a row, as [Entry._clean_up] leaves it. *)
Definition entry_of (datum af_bij bedrag soort mededelingen naam : string)
  : Entry :=
  mkEntry (<["amount" := Str.replace "," "." bedrag]>
             (row datum af_bij bedrag soort mededelingen naam)).

Definition atm_row : gmap string string :=
  row "20140131" "Af" "50,00" "Geldautomaat" "31-01-2014 12:01 Pasvolgnr: 001" "ING>Main St".

Definition transfer_row : gmap string string :=
  row "20140203" "Bij" "1250,00" "Overschrijving"
      "Naam: J. Jansen Omschrijving: huur IBAN: NL01" "J. Jansen".

Definition numbered_row (n : string) : gmap string string :=
  row "20140210" "Af" "1,00" "Diversen" n "row".

Definition ten_rows : list (gmap string string) :=
  numbered_row <$> ["1"; "2"; "3"; "4"; "5"; "6"; "7"; "8"; "9"; "10"].

(** * Facts about the string primitives *)

Module StrFacts.

Lemma app_nil_l (s : string) : "" +:+ s = s.
Proof. reflexivity. Qed.

Lemma app_cons (c : ascii) (s t : string) :
  String c s +:+ t = String c (s +:+ t).
Proof. reflexivity. Qed.

Lemma app_nil_r (s : string) : s +:+ "" = s.
Proof. induction s as [|c s IH]; [reflexivity|]. by rewrite app_cons, IH. Qed.

Lemma app_assoc (s t u : string) : (s +:+ t) +:+ u = s +:+ t +:+ u.
Proof.
  induction s as [|c s IH]; [reflexivity|]. by rewrite !app_cons, IH.
Qed.

Lemma length_app (s t : string) :
  String.length (s +:+ t) = String.length s + String.length t.
Proof.
  induction s as [|c s IH]; [reflexivity|]. rewrite app_cons. simpl. by rewrite IH.
Qed.

Lemma app_inv_head (s t u : string) : s +:+ t = s +:+ u -> t = u.
Proof.
  induction s as [|c s IH]; [done|]. rewrite !app_cons. intros [= H]. auto.
Qed.

(** Two decompositions of one string with left parts of equal length agree. *)
Lemma app_eq_length (s1 t1 s2 t2 : string) :
  s1 +:+ t1 = s2 +:+ t2 -> String.length s1 = String.length s2 ->
  s1 = s2 /\ t1 = t2.
Proof.
  revert s2. induction s1 as [|c s1 IH]; intros [|d s2]; try done.
  rewrite !app_cons. simpl. intros [= -> H] [= Hl].
  destruct (IH _ H Hl) as [-> ->]. done.
Qed.

(** ** Prefixes *)

Lemma prefix_nil (s : string) : String.prefix "" s = true.
Proof. by destruct s. Qed.

Lemma prefix_cons (a b : ascii) (p s : string) :
  String.prefix (String a p) (String b s)
  = if decide (a = b) then String.prefix p s else false.
Proof. simpl. destruct (ascii_dec a b), (decide (a = b)); done. Qed.

Lemma prefix_app (p t : string) : String.prefix p (p +:+ t) = true.
Proof.
  induction p as [|c p IH]; [apply prefix_nil|].
  rewrite app_cons, prefix_cons. by rewrite decide_True.
Qed.

Lemma prefix_inv (p s : string) :
  String.prefix p s = true -> exists t, s = p +:+ t.
Proof.
  revert s. induction p as [|c p IH]; intros s H.
  - by exists s.
  - destruct s as [|d s]; [done|]. rewrite prefix_cons in H.
    case_decide; [subst d|done]. destruct (IH _ H) as [t ->]. by exists t.
Qed.

Lemma prefix_iff (p s : string) :
  String.prefix p s = true <-> exists t, s = p +:+ t.
Proof.
  split; [apply prefix_inv|]. intros [t ->]. apply prefix_app.
Qed.

(** ** Occurrences of a substring *)

Lemma occurs_at_0 (sub s : string) :
  occurs_at sub s 0 <-> String.prefix sub s = true.
Proof.
  rewrite prefix_iff. split.
  - intros ([|??] & post & -> & Hl); [|done]. by exists post.
  - intros [t ->]. by exists "", t.
Qed.

Lemma occurs_at_S (sub : string) (c : ascii) (s : string) (i : nat) :
  occurs_at sub (String c s) (S i) <-> occurs_at sub s i.
Proof.
  split.
  - intros ([|d pre] & post & H & Hl); [done|].
    rewrite app_cons in H. injection H as -> ->. injection Hl as Hl.
    by exists pre, post.
  - intros (pre & post & -> & Hl). exists (String c pre), post.
    split; [done|]. simpl. by rewrite Hl.
Qed.

Lemma occurs_at_nil (sub : string) (i : nat) :
  occurs_at sub "" i -> sub = "" /\ i = 0.
Proof.
  intros ([|??] & post & H & Hl); [|done]. destruct sub; done.
Qed.

Lemma occurs_at_app_l (a b s : string) (i : nat) :
  occurs_at (a +:+ b) s i -> occurs_at a s i.
Proof.
  intros (pre & post & -> & Hl). exists pre, (b +:+ post).
  by rewrite app_assoc.
Qed.

Lemma find_first_at (sub s : string) (i : nat) :
  Str.find sub s = Some i <-> first_at sub s i.
Proof.
  revert i. induction s as [|c s IH]; intros i.
  - cbn [Str.find]. destruct (String.prefix sub "") eqn:Hp.
    + split.
      * intros [= <-]. split; [by apply occurs_at_0|lia].
      * intros [Ho _]. apply occurs_at_nil in Ho as [_ ->]. done.
    + split; [done|]. intros [Ho _]. destruct (occurs_at_nil _ _ Ho) as [-> ->].
      done.
  - cbn [Str.find]. destruct (String.prefix sub (String c s)) eqn:Hp.
    + split.
      * intros [= <-]. split; [by apply occurs_at_0|lia].
      * intros [_ Hmin]. destruct i as [|i]; [done|].
        exfalso. apply (Hmin 0); [lia|]. by apply occurs_at_0.
    + split.
      * destruct (Str.find sub s) as [k|] eqn:Hf; [|done].
        intros [= <-]. destruct (proj1 (IH k) eq_refl) as [Ho Hmin]. split.
        -- by apply occurs_at_S.
        -- intros [|j] Hj Hoj.
           ++ apply occurs_at_0 in Hoj. congruence.
           ++ apply occurs_at_S in Hoj. apply (Hmin j); [lia|done].
      * intros [Ho Hmin]. destruct i as [|i].
        { apply occurs_at_0 in Ho. congruence. }
        apply occurs_at_S in Ho.
        assert (Str.find sub s = Some i) as Hf; [|by rewrite Hf].
        apply IH. split; [done|]. intros j Hj Hoj.
        apply (Hmin (S j)); [lia|]. by apply occurs_at_S.
Qed.

Lemma find_absent (sub s : string) :
  Str.find sub s = None <-> absent sub s.
Proof.
  induction s as [|c s IH].
  - cbn [Str.find]. destruct (String.prefix sub "") eqn:Hp.
    + split; [done|]. intros H. exfalso. apply (H 0). by apply occurs_at_0.
    + split; [|done]. intros _ i Ho.
      destruct (occurs_at_nil _ _ Ho) as [-> ->]. done.
  - cbn [Str.find]. destruct (String.prefix sub (String c s)) eqn:Hp.
    + split; [done|]. intros H. exfalso. apply (H 0). by apply occurs_at_0.
    + destruct (Str.find sub s) as [k|] eqn:Hf.
      * split; [done|]. intros H. exfalso.
        apply find_first_at in Hf as [Ho _].
        apply (H (S k)). by apply occurs_at_S.
      * split; [|done]. intros _ [|i] Ho.
        -- apply occurs_at_0 in Ho. congruence.
        -- apply occurs_at_S in Ho. by apply (proj1 IH eq_refl i).
Qed.

Lemma first_at_unique (sub s : string) (i j : nat) :
  first_at sub s i -> first_at sub s j -> i = j.
Proof.
  intros Hi Hj. apply find_first_at in Hi, Hj. congruence.
Qed.

Lemma contains_true (sub s : string) :
  Str.contains sub s = true <-> exists i, occurs_at sub s i.
Proof.
  unfold Str.contains. destruct (Str.find sub s) as [i|] eqn:Hf.
  - split; [|done]. intros _. exists i. by apply find_first_at in Hf as [? _].
  - split; [done|]. intros [i Hi]. apply find_absent in Hf. by apply Hf in Hi.
Qed.

Lemma contains_false (sub s : string) :
  Str.contains sub s = false <-> absent sub s.
Proof.
  rewrite <-find_absent. unfold Str.contains. by destruct (Str.find sub s).
Qed.

(** ** Slices *)

Lemma substring_0_app (s t : string) :
  String.substring 0 (String.length s) (s +:+ t) = s.
Proof.
  induction s as [|c s IH]; [by destruct t|].
  rewrite app_cons. simpl. by rewrite IH.
Qed.

Lemma substring_skip (pre t : string) (m : nat) :
  String.substring (String.length pre) m (pre +:+ t) = String.substring 0 m t.
Proof.
  induction pre as [|c pre IH]; [done|]. rewrite app_cons. simpl. apply IH.
Qed.

Lemma slice_app (pre mid post : string) :
  Str.slice (pre +:+ mid +:+ post) (String.length pre)
            (String.length pre + String.length mid) = mid.
Proof.
  unfold Str.slice.
  replace (String.length pre + String.length mid - String.length pre)
    with (String.length mid) by lia.
  rewrite substring_skip. apply substring_0_app.
Qed.

Lemma slice_empty (s : string) (a b : nat) : b <= a -> Str.slice s a b = "".
Proof.
  intros H. unfold Str.slice. replace (b - a) with 0 by lia.
  clear H. revert a. induction s as [|c s IH]; intros [|a]; simpl; done.
Qed.

(** The text between two markers: what a slice from just after the first
    marker up to the second marker denotes when the markers do not overlap. *)
Lemma slice_between (pre m1 mid m2 post : string) :
  Str.slice (pre +:+ m1 +:+ mid +:+ m2 +:+ post)
            (String.length pre + String.length m1)
            (String.length pre + String.length m1 + String.length mid) = mid.
Proof.
  rewrite <-(app_assoc pre m1), <-length_app. apply slice_app.
Qed.

Lemma length_substring_0 (s : string) (m : nat) :
  String.length (String.substring 0 m s) = Nat.min m (String.length s).
Proof.
  revert m. induction s as [|c s IH]; intros [|m]; simpl; try done.
  by rewrite IH.
Qed.

Lemma length_substring (s : string) (a m : nat) :
  String.length (String.substring a m s) = Nat.min m (String.length s - a).
Proof.
  revert a. induction s as [|c s IH]; intros [|a]; simpl.
  - destruct m; simpl; lia.
  - lia.
  - rewrite <-(length_substring_0 (String c s)). done.
  - apply IH.
Qed.

Lemma length_slice (s : string) (a b : nat) :
  String.length (Str.slice s a b) = Nat.min b (String.length s) - a.
Proof. unfold Str.slice. rewrite length_substring. lia. Qed.

Lemma upto_app (s : string) (n : nat) :
  exists rest, s = Str.upto s n +:+ rest.
Proof.
  unfold Str.upto, Str.slice. rewrite Nat.sub_0_r.
  revert n. induction s as [|c s IH]; intros [|n]; simpl.
  - by exists "".
  - by exists "".
  - by exists (String c s).
  - destruct (IH n) as [rest Hr]. exists rest. by rewrite app_cons, <-Hr.
Qed.

Lemma length_upto (s : string) (n : nat) :
  String.length (Str.upto s n) = Nat.min n (String.length s).
Proof.
  unfold Str.upto, Str.slice. rewrite Nat.sub_0_r. apply length_substring_0.
Qed.

(** ** Whitespace trimming *)

Lemma lstrip_spec (s : string) :
  exists a, s = a +:+ Str.lstrip s /\ all_space a = true /\
            forall c, head (Str.lstrip s) = Some c -> Str.isspace c = false.
Proof.
  induction s as [|c s (a & Hs & Ha & Hh)].
  - exists "". repeat split. done.
  - simpl. destruct (Str.isspace c) eqn:Hc.
    + exists (String c a). rewrite app_cons, <-Hs. repeat split; [|done].
      simpl. by rewrite Hc.
    + exists "". repeat split. simpl. congruence.
Qed.

Lemma rstrip_cons (c : ascii) (s : string) :
  Str.rstrip (String c s)
  = if all_space (String c s) then "" else String c (Str.rstrip s).
Proof.
  assert (forall t, Str.rstrip t = "" <-> all_space t = true) as Hnil.
  { induction t as [|d t IH]; [done|]. simpl.
    destruct (Str.rstrip t) eqn:Ht.
    - rewrite (proj1 IH eq_refl), andb_true_r. by destruct (Str.isspace d).
    - destruct (all_space t); [discriminate (proj2 IH eq_refl)|].
      by rewrite andb_false_r. }
  simpl. destruct (Str.rstrip s) eqn:Hr.
  - rewrite (proj1 (Hnil s) Hr), andb_true_r. by destruct (Str.isspace c).
  - destruct (all_space s) eqn:Hs.
    + by rewrite (proj2 (Hnil s) Hs) in Hr.
    + by rewrite andb_false_r.
Qed.

Lemma rstrip_spec (s : string) :
  exists b, s = Str.rstrip s +:+ b /\ all_space b = true /\
            (forall c, last (Str.rstrip s) = Some c -> Str.isspace c = false) /\
            (forall c, head (Str.rstrip s) = Some c -> head s = Some c).
Proof.
  induction s as [|c s (b & Hs & Hb & Hl & Hh)].
  - exists "". repeat split; done.
  - rewrite rstrip_cons. destruct (all_space (String c s)) eqn:Hall.
    + exists (String c s). repeat split; done.
    + exists b. rewrite app_cons, <-Hs. repeat split; [done| |done].
      intros d. simpl. destruct (Str.rstrip s) eqn:Hr.
      * intros [= <-]. rewrite app_nil_l in Hs. subst b.
        simpl in Hall. rewrite Hb, andb_true_r in Hall. done.
      * apply Hl.
Qed.

Lemma strip_spec (s : string) :
  exists a b, s = a +:+ Str.strip s +:+ b /\
              all_space a = true /\ all_space b = true /\
              trimmed (Str.strip s).
Proof.
  destruct (lstrip_spec s) as (a & Hs & Ha & Hh).
  destruct (rstrip_spec (Str.lstrip s)) as (b & Hs' & Hb & Hl & Hh').
  exists a, b. unfold Str.strip. rewrite <-Hs', <-Hs.
  repeat split; try done. intros c Hc. apply Hh, Hh', Hc.
Qed.

(** ** Character replacement *)

Lemma length_replace (old new : ascii) (s : string) :
  String.length (Str.replace old new s) = String.length s.
Proof. induction s as [|c s IH]; simpl; [done|by rewrite IH]. Qed.

Lemma replace_removes (old new : ascii) (s : string) :
  old <> new -> occurs_char old (Str.replace old new s) = false.
Proof.
  intros Hne. induction s as [|c s IH]; [done|]. simpl. rewrite IH, orb_false_r.
  destruct (Ascii.eqb_spec c old) as [->|Hc].
  - by apply Ascii.eqb_neq.
  - by apply Ascii.eqb_neq.
Qed.

Lemma replace_absent (old new : ascii) (s : string) :
  occurs_char old s = false -> Str.replace old new s = s.
Proof.
  induction s as [|c s IH]; [done|]. simpl.
  intros [Hc Hs]%orb_false_elim. by rewrite Hc, IH.
Qed.

Lemma get_replace (old new : ascii) (s : string) (n : nat) :
  String.get n (Str.replace old new s)
  = (fun c => if Ascii.eqb c old then new else c) <$> String.get n s.
Proof.
  revert n. induction s as [|c s IH]; intros [|n]; simpl; done.
Qed.

(** ** Joining lines *)

Lemma join_cons (sep x : string) (l : list string) :
  Str.join sep (x :: l) = x +:+ prepend_all sep l.
Proof.
  revert x. induction l as [|y l IH]; intros x.
  - simpl. by rewrite app_nil_r.
  - change (Str.join sep (x :: y :: l)) with (x +:+ sep +:+ Str.join sep (y :: l)).
    by rewrite IH.
Qed.

Lemma join_snoc (sep x y : string) (l : list string) :
  Str.join sep ((x :: l) ++ [y]) = Str.join sep (x :: l) +:+ sep +:+ y.
Proof.
  revert x. induction l as [|z l IH]; intros x; [done|].
  change (Str.join sep ((x :: z :: l) ++ [y]))
    with (x +:+ sep +:+ Str.join sep ((z :: l) ++ [y])).
  rewrite IH.
  change (Str.join sep (x :: z :: l)) with (x +:+ sep +:+ Str.join sep (z :: l)).
  by rewrite !app_assoc.
Qed.

End StrFacts.

(** * The memo strategies *)

Section Strategies.

Variables notes payee : string.

Lemma index_find (s sub : string) :
  Str.index s sub
  = match Str.find sub s with Some i => Ok i | None => Raise ValueError end.
Proof. reflexivity. Qed.

(** The bank-transfer strategy without its exception handling. *)
Lemma memo_internetbankieren_eq :
  _memo_internetbankieren notes payee
  = Ok match Str.find "Naam: " notes with
       | None => None
       | Some s =>
           match (if Str.contains "Omschrijving:" notes
                  then Str.find "Omschrijving: " notes
                  else Str.find "IBAN: " notes) with
           | Some e => Some (Str.slice notes (s + 6) e)
           | None => None
           end
       end.
Proof.
  unfold _memo_internetbankieren. rewrite !index_find.
  destruct (Str.find "Naam: " notes) as [s|]; [|done]. cbn [bind].
  destruct (Str.contains "Omschrijving:" notes).
  - by destruct (Str.find "Omschrijving: " notes).
  - by destruct (Str.find "IBAN: " notes).
Qed.

Lemma omschrijving_marker (s : string) (i : nat) :
  occurs_at "Omschrijving: " s i -> occurs_at "Omschrijving:" s i.
Proof. apply (StrFacts.occurs_at_app_l "Omschrijving:" " "). Qed.

Lemma memo_internetbankieren_sound (r : option string) :
  _memo_internetbankieren notes payee = Ok r -> internetbankieren_memo notes r.
Proof.
  rewrite memo_internetbankieren_eq. intros [= <-].
  destruct (Str.find "Naam: " notes) as [s|] eqn:Hn.
  2: { by apply ib_no_naam, StrFacts.find_absent. }
  apply StrFacts.find_first_at in Hn.
  destruct (Str.contains "Omschrijving:" notes) eqn:Hc.
  - apply StrFacts.contains_true in Hc as [i Hi].
    destruct (Str.find "Omschrijving: " notes) as [e|] eqn:He.
    + by apply ib_omschrijving; [|apply StrFacts.find_first_at].
    + by apply (ib_no_omschrijving _ s i); [| |apply StrFacts.find_absent].
  - apply StrFacts.contains_false in Hc.
    destruct (Str.find "IBAN: " notes) as [e|] eqn:He.
    + by apply ib_iban; [| |apply StrFacts.find_first_at].
    + by apply (ib_no_iban _ s); [| |apply StrFacts.find_absent].
Qed.

Lemma memo_internetbankieren_complete (r : option string) :
  internetbankieren_memo notes r -> _memo_internetbankieren notes payee = Ok r.
Proof.
  rewrite memo_internetbankieren_eq.
  intros [Hn|s e Hn He|s e Hn Ho He|s i Hn Ho He|s Hn Ho He].
  - apply StrFacts.find_absent in Hn. by rewrite Hn.
  - assert (Str.contains "Omschrijving:" notes = true) as ->.
    { apply StrFacts.contains_true. exists e. apply omschrijving_marker, He. }
    apply StrFacts.find_first_at in Hn, He. by rewrite Hn, He.
  - apply StrFacts.contains_false in Ho.
    apply StrFacts.find_first_at in Hn, He. by rewrite Hn, Ho, He.
  - assert (Str.contains "Omschrijving:" notes = true) as ->.
    { apply StrFacts.contains_true. by exists i. }
    apply StrFacts.find_first_at in Hn. apply StrFacts.find_absent in He.
    by rewrite Hn, He.
  - apply StrFacts.contains_false in Ho.
    apply StrFacts.find_first_at in Hn. apply StrFacts.find_absent in He.
    by rewrite Hn, Ho, He.
Qed.

End Strategies.

(** C1 (as amended). For a record whose category is Internetbankieren or
    Overschrijving the memo strategy is [_memo_internetbankieren]; it never
    raises, and its result is the one described by [internetbankieren_memo]:
    the text of the notes from just after the first "Naam: " up to the first
    "Omschrijving: " when the notes contain "Omschrijving:", and up to the
    first "IBAN: " otherwise; no result when "Naam: " or the end marker so
    chosen is absent. *)
Theorem memo_internetbankieren_spec (soort notes payee : string) :
  soort = "Internetbankieren" \/ soort = "Overschrijving" ->
  exists strategy,
    subscript memo_methods soort = Ok strategy /\
    (exists r, strategy notes payee = Ok r) /\
    (forall r, strategy notes payee = Ok r <-> internetbankieren_memo notes r) /\
    (absent "Naam: " notes -> strategy notes payee = Ok None).
Proof.
  intros Hsoort. exists _memo_internetbankieren. split; [by destruct Hsoort as [-> | ->]|].
  split; [|split].
  - rewrite memo_internetbankieren_eq. eauto.
  - intros r. split.
    + apply memo_internetbankieren_sound.
    + apply memo_internetbankieren_complete.
  - intros Hn. by apply memo_internetbankieren_complete, ib_no_naam.
Qed.

Lemma memo_internetbankieren_spec_witness :
  ("Overschrijving" = "Internetbankieren" \/ "Overschrijving" = "Overschrijving") /\
  exists strategy,
    subscript memo_methods "Overschrijving" = Ok strategy /\
    (exists r, strategy "Naam: J. Jansen Omschrijving: huur IBAN: NL01" "J. Jansen" = Ok r) /\
    (forall r, strategy "Naam: J. Jansen Omschrijving: huur IBAN: NL01" "J. Jansen" = Ok r
               <-> internetbankieren_memo "Naam: J. Jansen Omschrijving: huur IBAN: NL01" r) /\
    (absent "Naam: " "Naam: J. Jansen Omschrijving: huur IBAN: NL01" ->
     strategy "Naam: J. Jansen Omschrijving: huur IBAN: NL01" "J. Jansen" = Ok None).
Proof.
  split; [right; reflexivity|].
  apply (memo_internetbankieren_spec "Overschrijving"
           "Naam: J. Jansen Omschrijving: huur IBAN: NL01" "J. Jansen").
  right; reflexivity.
Defined.

(** C1 (as stated) fails: with "IBAN: " before "Omschrijving: " in the notes,
    the program cuts at "Omschrijving: ", not at the marker that comes
    first. *)
Lemma memo_internetbankieren_not_first_marker :
  let notes := "Naam: A IBAN: NL01 Omschrijving: rent" in
  Str.find "IBAN: " notes = Some 8 /\
  Str.find "Omschrijving: " notes = Some 19 /\
  spec_memo_internetbankieren notes = Some "A " /\
  _memo_internetbankieren notes "A" = Ok (Some "A IBAN: NL01 ") /\
  _memo_internetbankieren notes "A" <> Ok (spec_memo_internetbankieren notes).
Proof. vm_compute. repeat split. discriminate. Qed.

(** * The memo of an entry *)

Lemma subscript_Raise {V : Type} (d : list (string * V)) (k : string) (e : exn) :
  subscript d k = Raise e -> e = KeyError k.
Proof.
  induction d as [|[k' v] d IH]; simpl; [congruence|].
  destruct (String.eqb k' k); [done|apply IH].
Qed.

Lemma entry_types_truthy (soort label : string) :
  subscript entry_types soort = Ok label -> Str.truthy label = true.
Proof.
  unfold entry_types. simpl.
  repeat match goal with
         | |- context [if ?b then _ else _] => destruct b; [by intros [= <-]|]
         end.
  done.
Qed.

Section Memo.

Variable self : Entry.
Variables soort notes payee : string.
Hypothesis Hsoort : getitem self "Mutatiesoort" = Ok soort.
Hypothesis Hnotes : getitem self "Mededelingen" = Ok notes.
Hypothesis Hpayee : getitem self "Naam / Omschrijving" = Ok payee.

Lemma default_memo_eq : default_memo self = Ok (notes +:+ " " +:+ payee).
Proof using Hnotes Hpayee. unfold default_memo. by rewrite Hnotes, Hpayee. Qed.

(** The classifier does not raise: a category outside its table has no
    label. *)
Lemma entry_type_eq :
  _entry_type self
  = Ok match subscript entry_types soort with
       | Ok label => Some label
       | Raise _ => None
       end.
Proof using Hsoort.
  unfold _entry_type. rewrite Hsoort. cbn [bind].
  destruct (subscript entry_types soort) as [label|e] eqn:Hs; [done|].
  by rewrite (subscript_Raise _ _ _ Hs).
Qed.

Lemma entry_type_truthy (label : string) :
  _entry_type self = Ok (Some label) -> Str.truthy label = true.
Proof using Hsoort.
  rewrite entry_type_eq.
  destruct (subscript entry_types soort) as [l|] eqn:Hs; [|done].
  intros [= <-]. by apply entry_types_truthy in Hs.
Qed.

Lemma memo_eq :
  _memo self
  = let! memo := resolve_memo self soort notes payee in
    let! ty := _entry_type self in
    match ty with
    | Some label => Ok (label +:+ " " +:+ memo)
    | None => Ok (Str.strip memo)
    end.
Proof using Hsoort Hnotes Hpayee.
  unfold _memo. rewrite Hsoort, Hnotes, Hpayee. cbn [bind].
  destruct (resolve_memo self soort notes payee) as [memo|]; [|done]. cbn [bind].
  destruct (_entry_type self) as [[label|]|] eqn:Ht; [|done..]. cbn [bind].
  by rewrite (entry_type_truthy label Ht).
Qed.

(** With a strategy for the category, the resolved memo is the result of the
    strategy, or the default memo when the strategy has no result. *)
Lemma resolve_memo_strategy (strategy : memo_strategy) :
  subscript memo_methods soort = Ok strategy ->
  (forall k, strategy notes payee <> Raise (KeyError k)) ->
  resolve_memo self soort notes payee
  = let! memo := strategy notes payee in
    match memo with
    | Some memo => Ok memo
    | None => Ok (notes +:+ " " +:+ payee)
    end.
Proof using Hnotes Hpayee.
  intros Hs Hk. unfold resolve_memo. rewrite Hs. cbn [bind].
  destruct (strategy notes payee) as [[memo|]|[k| |]] eqn:Hr; cbn; try done.
  - apply default_memo_eq.
  - by destruct (Hk k).
Qed.

End Memo.

(** C2. For an entry of category Incasso with notes [notes] and payee
    [payee]: when the payee or the notes start with "SEPA Incasso" and
    "Naam: " or "Kenmerk: " is absent from the notes, the memo raises the
    exception that carries the notes and the payee; when neither starts with
    "SEPA Incasso", nothing is raised, the strategy has no result and the
    memo is built from the default memo, notes + space + payee. *)
Theorem memo_incasso_spec (self : Entry) (notes payee : string) :
  getitem self "Mutatiesoort" = Ok "Incasso" ->
  getitem self "Mededelingen" = Ok notes ->
  getitem self "Naam / Omschrijving" = Ok payee ->
  subscript memo_methods "Incasso" = Ok _memo_incasso /\
  (Str.startswith payee "SEPA Incasso" || Str.startswith notes "SEPA Incasso" = true ->
   absent "Naam: " notes \/ absent "Kenmerk: " notes ->
   _memo_incasso notes payee = Raise (Exception_ notes payee) /\
   _memo self = Raise (Exception_ notes payee)) /\
  (Str.startswith payee "SEPA Incasso" || Str.startswith notes "SEPA Incasso" = false ->
   _memo_incasso notes payee = Ok None /\
   resolve_memo self "Incasso" notes payee = Ok (notes +:+ " " +:+ payee) /\
   _memo self = Ok ("Transfer" +:+ " " +:+ notes +:+ " " +:+ payee)).
Proof.
  intros Hsoort Hnotes Hpayee. split; [done|].
  rewrite (memo_eq self _ _ _ Hsoort Hnotes Hpayee).
  rewrite (entry_type_eq self _ Hsoort).
  split.
  - intros Hsepa Habs.
    assert (_memo_incasso notes payee = Raise (Exception_ notes payee)) as Hraise.
    { unfold _memo_incasso. rewrite Hsepa, !index_find.
      destruct Habs as [Ha|Ha]; apply StrFacts.find_absent in Ha; rewrite Ha.
      - done.
      - by destruct (Str.find "Naam: " notes). }
    split; [done|].
    rewrite (resolve_memo_strategy self _ _ _ Hnotes Hpayee _memo_incasso);
      [|done|by rewrite Hraise].
    by rewrite Hraise.
  - intros Hsepa.
    assert (_memo_incasso notes payee = Ok None) as Hnone.
    { unfold _memo_incasso. by rewrite Hsepa. }
    split; [done|].
    rewrite (resolve_memo_strategy self _ _ _ Hnotes Hpayee _memo_incasso);
      [|done|by rewrite Hnone].
    by rewrite Hnone.
Qed.

Lemma memo_incasso_spec_witness :
  let self := entry_of "20140205" "Af" "19,95" "Incasso"
                       "SEPA Incasso Naam: Acme Corp" "Acme Corp" in
  getitem self "Mutatiesoort" = Ok "Incasso" /\
  getitem self "Mededelingen" = Ok "SEPA Incasso Naam: Acme Corp" /\
  getitem self "Naam / Omschrijving" = Ok "Acme Corp" /\
  Str.find "Kenmerk: " "SEPA Incasso Naam: Acme Corp" = None /\
  _memo self = Raise (Exception_ "SEPA Incasso Naam: Acme Corp" "Acme Corp").
Proof.
  repeat (split; [reflexivity|]).
  refine (proj2 (proj1 (proj2 (memo_incasso_spec
            (entry_of "20140205" "Af" "19,95" "Incasso"
                      "SEPA Incasso Naam: Acme Corp" "Acme Corp")
            "SEPA Incasso Naam: Acme Corp" "Acme Corp" _ _ _)) _ _)).
  - reflexivity.
  - reflexivity.
  - reflexivity.
  - reflexivity.
  - right. apply StrFacts.find_absent. reflexivity.
Defined.

(** C4. Once the memo of the category strategy, or the default memo, is
    resolved to [memo]: when the classifier gives a label, the memo of the
    entry is the label, one space and [memo], untrimmed; when it gives none,
    the memo of the entry is [memo] without the whitespace at its two
    ends. *)
Theorem memo_label_or_strip (self : Entry) (soort notes payee memo : string) :
  getitem self "Mutatiesoort" = Ok soort ->
  getitem self "Mededelingen" = Ok notes ->
  getitem self "Naam / Omschrijving" = Ok payee ->
  resolve_memo self soort notes payee = Ok memo ->
  (exists ty, _entry_type self = Ok ty) /\
  (forall label, _entry_type self = Ok (Some label) ->
     _memo self = Ok (label +:+ " " +:+ memo)) /\
  (_entry_type self = Ok None ->
     _memo self = Ok (Str.strip memo) /\
     exists a b, memo = a +:+ Str.strip memo +:+ b /\
                 all_space a = true /\ all_space b = true /\
                 trimmed (Str.strip memo)).
Proof.
  intros Hsoort Hnotes Hpayee Hmemo.
  rewrite (memo_eq self _ _ _ Hsoort Hnotes Hpayee), Hmemo. cbn [bind].
  split; [|split].
  - rewrite (entry_type_eq self _ Hsoort). eauto.
  - by intros label ->.
  - intros ->. split; [done|]. apply StrFacts.strip_spec.
Qed.

Lemma memo_label_or_strip_witness :
  let self := entry_of "20140203" "Bij" "1250,00" "Overschrijving"
                       "Naam:  J. Jansen  Omschrijving: huur" "J. Jansen" in
  resolve_memo self "Overschrijving" "Naam:  J. Jansen  Omschrijving: huur" "J. Jansen"
  = Ok " J. Jansen  " /\
  _entry_type self = Ok None /\
  _memo self = Ok "J. Jansen".
Proof.
  split; [reflexivity|]. split; [reflexivity|].
  refine (proj1 (proj2 (proj2 (memo_label_or_strip
            (entry_of "20140203" "Bij" "1250,00" "Overschrijving"
                      "Naam:  J. Jansen  Omschrijving: huur" "J. Jansen")
            "Overschrijving" "Naam:  J. Jansen  Omschrijving: huur" "J. Jansen"
            " J. Jansen  " _ _ _ _)) _)); reflexivity.
Defined.

(** C5. For an entry of category Geldautomaat or Betaalautomaat the strategy
    is [_memo_geldautomaat]; it returns the payee unchanged when the payee
    starts with "ING>", "ING BANK>" or "OPL. CHIPKNIP", and otherwise the
    first 32 characters of the notes (all of them when there are fewer); the
    memo of the entry is "ATM", a space and that text. *)
Theorem memo_geldautomaat_spec (self : Entry) (soort notes payee : string) :
  soort = "Geldautomaat" \/ soort = "Betaalautomaat" ->
  getitem self "Mutatiesoort" = Ok soort ->
  getitem self "Mededelingen" = Ok notes ->
  getitem self "Naam / Omschrijving" = Ok payee ->
  let text :=
    if Str.startswith payee "ING>" || Str.startswith payee "ING BANK>"
       || Str.startswith payee "OPL. CHIPKNIP"
    then payee else Str.upto notes 32 in
  subscript memo_methods soort = Ok _memo_geldautomaat /\
  _memo_geldautomaat notes payee = Ok (Some text) /\
  _memo self = Ok ("ATM" +:+ " " +:+ text) /\
  (exists rest, notes = Str.upto notes 32 +:+ rest) /\
  String.length (Str.upto notes 32) = Nat.min 32 (String.length notes).
Proof.
  intros Hcat Hsoort Hnotes Hpayee text.
  assert (subscript memo_methods soort = Ok _memo_geldautomaat) as Hm
    by (by destruct Hcat as [-> | ->]).
  assert (_memo_geldautomaat notes payee = Ok (Some text)) as Hs.
  { unfold _memo_geldautomaat, text.
    by destruct (Str.startswith payee "ING>" || Str.startswith payee "ING BANK>"
                 || Str.startswith payee "OPL. CHIPKNIP"). }
  repeat split; try done.
  - rewrite (memo_eq self _ _ _ Hsoort Hnotes Hpayee).
    rewrite (resolve_memo_strategy self _ _ _ Hnotes Hpayee _ Hm);
      [|by rewrite Hs].
    rewrite Hs, (entry_type_eq self _ Hsoort).
    by destruct Hcat as [-> | ->].
  - apply StrFacts.upto_app.
  - apply StrFacts.length_upto.
Qed.

Lemma memo_geldautomaat_spec_witness :
  let self := entry_of "20140131" "Af" "50,00" "Geldautomaat"
                       "31-01-2014 12:01 Pasvolgnr: 001" "ING>Main St" in
  getitem self "Mutatiesoort" = Ok "Geldautomaat" /\
  getitem self "Naam / Omschrijving" = Ok "ING>Main St" /\
  _memo self = Ok "ATM ING>Main St".
Proof.
  split; [reflexivity|]. split; [reflexivity|].
  refine (proj1 (proj2 (proj2 (memo_geldautomaat_spec
            (entry_of "20140131" "Af" "50,00" "Geldautomaat"
                      "31-01-2014 12:01 Pasvolgnr: 001" "ING>Main St")
            "Geldautomaat" "31-01-2014 12:01 Pasvolgnr: 001" "ING>Main St"
            _ _ _ _)))); [by left|reflexivity..].
Defined.

(** * Amount and date *)

(** C6. The formatted amount of an entry is its normalized amount with "+" in
    front when the direction field is "Bij" and with "-" in front for any
    other direction; the amount itself plays no part in the choice. *)
Theorem amount_format_sign (self : Entry) (af_bij amount : string) :
  getitem self "Af Bij" = Ok af_bij ->
  getitem self "amount" = Ok amount ->
  (af_bij = "Bij" -> _amount_format self = Ok ("+" +:+ amount)) /\
  (af_bij <> "Bij" -> _amount_format self = Ok ("-" +:+ amount)) /\
  (_amount_format self = Ok ("+" +:+ amount) <-> af_bij = "Bij").
Proof.
  intros Hdir Hamount. unfold _amount_format. rewrite Hdir, Hamount. cbn [bind].
  destruct (String.eqb_spec af_bij "Bij") as [->|Hne].
  - repeat split; done.
  - repeat split; done.
Qed.

Lemma amount_format_sign_witness :
  let self := entry_of "20140203" "Bij" "-12,50" "Overschrijving" "" "J. Jansen" in
  getitem self "Af Bij" = Ok "Bij" /\
  getitem self "amount" = Ok "-12.50" /\
  _amount_format self = Ok "+-12.50".
Proof.
  split; [reflexivity|]. split; [reflexivity|].
  refine (proj1 (amount_format_sign
            (entry_of "20140203" "Bij" "-12,50" "Overschrijving" "" "J. Jansen")
            "Bij" "-12.50" _ _) _); reflexivity.
Defined.

Lemma digit_not_comma (c : ascii) :
  is_digit c = true -> Ascii.eqb c "," = false.
Proof. by destruct c as [[] [] [] [] [] [] [] []]. Qed.

Lemma digits_no_comma (s : string) :
  digits s = true -> occurs_char "," s = false.
Proof.
  induction s as [|c s IH]; [done|]. simpl. intros [Hc Hs]%andb_prop.
  by rewrite (digit_not_comma c Hc), IH.
Qed.

Lemma numeral_tail_comma (s : string) :
  numeral_tail "," s = true -> numeral_tail "." (Str.replace "," "." s) = true.
Proof.
  induction s as [|c s IH]; [done|]. simpl.
  destruct (is_digit c) eqn:Hc.
  - rewrite (digit_not_comma c Hc), Hc. apply IH.
  - intros [[->%Ascii.eqb_eq Ht]%andb_prop Hd]%andb_prop. simpl.
    rewrite (StrFacts.replace_absent _ _ s (digits_no_comma s Hd)).
    by rewrite Ht, Hd.
Qed.

Lemma numeral_tail_point (s : string) :
  numeral_tail "." s = true -> Str.replace "," "." s = s.
Proof.
  induction s as [|c s IH]; [done|]. simpl.
  destruct (is_digit c) eqn:Hc.
  - rewrite (digit_not_comma c Hc). intros Hs. by rewrite IH.
  - intros [[->%Ascii.eqb_eq Ht]%andb_prop Hd]%andb_prop. simpl.
    by rewrite (StrFacts.replace_absent _ _ s (digits_no_comma s Hd)).
Qed.

Lemma decimal_numeral_replace (s : string) :
  decimal_numeral "," s = true \/ decimal_numeral "." s = true ->
  decimal_numeral "." (Str.replace "," "." s) = true.
Proof.
  destruct s as [|c s]; [by intros [|]|]. simpl.
  intros [[Hc Hs]%andb_prop|[Hc Hs]%andb_prop];
    rewrite (digit_not_comma c Hc), Hc; simpl.
  - by apply numeral_tail_comma.
  - by rewrite (numeral_tail_point s Hs).
Qed.

(** C7 (as amended). For a row with an amount column, the entry stores as
    normalized amount the text of that column with every comma replaced by a
    point, next to the unchanged columns; the normalized amount holds no
    comma, and it is a decimal numeral with "." as separator whenever the
    source amount is a decimal numeral with "," or "." as separator. *)
Theorem clean_up_amount (data : gmap string string) (bedrag : string) :
  data !! "Bedrag (EUR)" = Some bedrag ->
  exists self,
    Entry_init data = Ok self /\
    getitem self "amount" = Ok (Str.replace "," "." bedrag) /\
    (forall k, k <> "amount" -> Entry_data self !! k = data !! k) /\
    occurs_char "," (Str.replace "," "." bedrag) = false /\
    String.length (Str.replace "," "." bedrag) = String.length bedrag /\
    (decimal_numeral "," bedrag = true \/ decimal_numeral "." bedrag = true ->
     decimal_numeral "." (Str.replace "," "." bedrag) = true).
Proof.
  intros Hb. eexists. unfold Entry_init, _clean_up. rewrite Hb. cbn [bind].
  split; [done|]. unfold getitem. cbn [Entry_data]. repeat split.
  - by rewrite lookup_insert_eq.
  - intros k Hk. by rewrite lookup_insert_ne.
  - by apply StrFacts.replace_removes.
  - apply StrFacts.length_replace.
  - apply decimal_numeral_replace.
Qed.

Lemma clean_up_amount_witness :
  atm_row !! "Bedrag (EUR)" = Some "50,00" /\
  exists self,
    Entry_init atm_row = Ok self /\
    getitem self "amount" = Ok (Str.replace "," "." "50,00") /\
    (forall k, k <> "amount" -> Entry_data self !! k = atm_row !! k) /\
    occurs_char "," (Str.replace "," "." "50,00") = false /\
    String.length (Str.replace "," "." "50,00") = String.length "50,00" /\
    (decimal_numeral "," "50,00" = true \/ decimal_numeral "." "50,00" = true ->
     decimal_numeral "." (Str.replace "," "." "50,00") = true).
Proof.
  split; [reflexivity|]. apply (clean_up_amount atm_row "50,00"). reflexivity.
Defined.

(** C7 (as stated) fails: an amount with a point between the thousands has
    two points once its comma is replaced. *)
Lemma clean_up_amount_not_numeral :
  let data := row "20140203" "Bij" "1.234,56" "Overschrijving" "" "J. Jansen" in
  exists self,
    Entry_init data = Ok self /\
    getitem self "amount" = Ok "1.234.56" /\
    decimal_numeral "." "1.234.56" = false.
Proof. eexists. repeat split. Qed.

(** C8. On an eight-character date YYYYMMDD the result is DD/MM/YYYY; on any
    string at all the function returns a string, of two slashes and the first
    eight characters of its argument at most. *)
Theorem date_format_spec :
  (forall y1 y2 y3 y4 m1 m2 d1 d2 : ascii,
     _date_format
       (String y1 (String y2 (String y3 (String y4
          (String m1 (String m2 (String d1 (String d2 ""))))))))
     = String d1 (String d2 (String "/" (String m1 (String m2 (String "/"
          (String y1 (String y2 (String y3 (String y4 "")))))))))) /\
  _date_format "20140131" = "31/01/2014" /\
  (forall s, exists out,
     _date_format s = out /\
     String.length out = 2 + Nat.min 8 (String.length s)).
Proof.
  repeat split.
  intros s. eexists. split; [done|].
  unfold _date_format. rewrite !StrFacts.length_app, !StrFacts.length_slice.
  change (String.length "/") with 1. lia.
Qed.

(** * The loop of [main] *)

Section Loop.

Variable start : Z.
Variable number : option Z.

(** Rows before the start position are wrapped and dropped. *)
Lemma main_loop_skip (rows : list (gmap string string)) (c : Z) (qif : QifEntries) :
  let k := Z.to_nat (start - 1 - c) in
  main_loop rows start number c qif
  = let! _ := mapM Entry_init (take k rows) in
    main_loop (drop k rows) start number (c + Z.of_nat k) qif.
Proof.
  revert c. induction rows as [|row rows IH]; intros c k.
  - by rewrite take_nil, drop_nil.
  - destruct k as [|k'] eqn:Hk.
    + cbn [take drop mapM bind]. by rewrite Z.add_0_r.
    + cbn [take drop mapM main_loop].
      destruct (Entry_init row) as [entry|]; [|done]. cbn [bind].
      replace (c + 1 >=? start)%Z with false by lia.
      rewrite IH. replace (Z.to_nat (start - 1 - (c + 1))) with k' by lia.
      replace (c + 1 + Z.of_nat k')%Z with (c + Z.of_nat (S k'))%Z by lia.
      by destruct (mapM Entry_init (take k' rows)).
Qed.

(** From the start position on, without a count every row is added. *)
Lemma main_loop_unlimited (rows : list (gmap string string)) (c : Z) (qif : QifEntries) :
  truthy_number number = false ->
  (start <= c + 1)%Z ->
  main_loop rows start number c qif
  = let! added := mapM convert rows in
    Ok (mkQifEntries (QifEntries_entries qif ++ added)).
Proof.
  intros Hnum. revert c qif. induction rows as [|row rows IH]; intros c qif Hc.
  - cbn. rewrite app_nil_r. by destruct qif.
  - cbn [main_loop mapM]. unfold convert at 1, add_entry.
    destruct (Entry_init row) as [entry|]; [|done]. cbn [bind].
    replace (c + 1 >=? start)%Z with true by lia.
    destruct (QifEntry_init entry) as [q|]; [|done]. cbn [bind].
    rewrite Hnum. cbn [andb].
    replace (match number with Some _ => false | None => false end)
      with false by (by destruct number).
    rewrite IH by lia. cbn [QifEntries_entries].
    destruct (mapM convert rows) as [added|]; [|done]. cbn [bind].
    by rewrite <-app_assoc.
Qed.

End Loop.

(** From the start position on, with a count the loop stops after the row
    that completes the count. *)
Lemma main_loop_limited (start M : Z) (rows : list (gmap string string))
    (c : Z) (qif : QifEntries) :
  M <> 0%Z ->
  (start - 1 <= c < start + M - 1)%Z ->
  main_loop rows start (Some M) c qif
  = let! added := mapM convert (take (Z.to_nat (start + M - 1 - c)) rows) in
    Ok (mkQifEntries (QifEntries_entries qif ++ added)).
Proof.
  intros HM. revert c qif. induction rows as [|row rows IH]; intros c qif Hc.
  - rewrite take_nil. cbn. rewrite app_nil_r. by destruct qif.
  - destruct (Z.to_nat (start + M - 1 - c)) as [|k] eqn:Hk; [lia|].
    cbn [take main_loop mapM]. unfold convert at 1, add_entry.
    destruct (Entry_init row) as [entry|]; [|done]. cbn [bind].
    replace (c + 1 >=? start)%Z with true by lia.
    destruct (QifEntry_init entry) as [q|]; [|done]. cbn [bind].
    unfold truthy_number. replace (M =? 0)%Z with false by lia. cbn [negb andb].
    destruct (c + 1 >? start + M - 2)%Z eqn:Hbreak.
    + assert (k = 0) as -> by lia. by rewrite take_0.
    + rewrite IH by lia. cbn [QifEntries_entries].
      replace (Z.to_nat (start + M - 1 - (c + 1))) with k by lia.
      destruct (mapM convert (take k rows)) as [added|]; [|done]. cbn [bind].
      by rewrite <-app_assoc.
Qed.

Lemma main_loop_window (rows : list (gmap string string)) (N M : Z) (qif : QifEntries) :
  (1 <= N)%Z -> (1 <= M)%Z ->
  main_loop rows N (Some M) 0 qif = selects rows N (window rows N M) qif.
Proof.
  intros HN HM. rewrite main_loop_skip. unfold selects, window.
  replace (Z.to_nat (N - 1 - 0)) with (Z.to_nat (N - 1)) by lia.
  destruct (mapM Entry_init (take (Z.to_nat (N - 1)) rows)); [|done]. cbn [bind].
  rewrite main_loop_limited by lia. do 3 f_equal. lia.
Qed.

Lemma main_loop_from (rows : list (gmap string string)) (start : Z)
    (number : option Z) (qif : QifEntries) :
  truthy_number number = false ->
  main_loop rows start number 0 qif
  = selects rows start (from_position rows start) qif.
Proof.
  intros Hnum. rewrite main_loop_skip. unfold selects, from_position.
  replace (Z.to_nat (start - 1 - 0)) with (Z.to_nat (start - 1)) by lia.
  destruct (mapM Entry_init (take (Z.to_nat (start - 1)) rows)); [|done].
  cbn [bind]. by rewrite main_loop_unlimited by (done || lia).
Qed.

(** C3 (as amended). For a start position [N >= 1] and a count [M >= 1], the
    loop of [main] wraps the rows before position [N] and adds exactly the
    rows of the window: the row at position [N + i] for every [i < M] that the
    input reaches, in the order of the input, so [M] rows unless the input
    ends first. *)
Theorem window_exact (rows : list (gmap string string)) (N M : Z) :
  (1 <= N)%Z -> (1 <= M)%Z ->
  window_claim rows N M /\
  length (window rows N M)
  = Nat.min (Z.to_nat M) (length rows - Z.to_nat (N - 1)) /\
  (forall i, i < Z.to_nat M ->
     window rows N M !! i = rows !! (Z.to_nat (N - 1) + i)).
Proof.
  intros HN HM. split; [by apply main_loop_window|]. unfold window. split.
  - by rewrite length_take, length_drop.
  - intros i Hi. by rewrite lookup_take_lt, lookup_drop.
Qed.

Lemma window_exact_witness :
  (1 <= 3)%Z /\ (1 <= 4)%Z /\
  window ten_rows 3 4 = numbered_row <$> ["3"; "4"; "5"; "6"] /\
  main_loop ten_rows 3 (Some 4%Z) 0 QifEntries_init
  = selects ten_rows 3 (numbered_row <$> ["3"; "4"; "5"; "6"]) QifEntries_init.
Proof.
  split; [lia|]. split; [lia|]. split; [reflexivity|].
  refine (proj1 (window_exact ten_rows 3 4 _ _)); lia.
Defined.

(** C3 (as stated) fails for the count 0: the loop then adds every row from
    the start position on, not an empty window. *)
Lemma window_count_zero :
  let rows := numbered_row <$> ["1"; "2"; "3"] in
  window rows 1 0 = [] /\
  (exists qif, main_loop rows 1 (Some 0%Z) 0 QifEntries_init = Ok qif /\
               length (QifEntries_entries qif) = 3) /\
  ~ window_claim rows 1 0.
Proof.
  split; [reflexivity|]. split.
  - eexists. split; reflexivity.
  - unfold window_claim. vm_compute. discriminate.
Qed.

(** C10. With the count 0 the loop adds every row from the start position to
    the end of the input, as it does without a count. *)
Theorem window_count_zero_unlimited (rows : list (gmap string string)) (start : Z) :
  main_loop rows start (Some 0%Z) 0 QifEntries_init
  = selects rows start (from_position rows start) QifEntries_init /\
  main_loop rows start (Some 0%Z) 0 QifEntries_init
  = main_loop rows start None 0 QifEntries_init /\
  length (from_position rows start) = length rows - Z.to_nat (start - 1) /\
  (forall i, from_position rows start !! i = rows !! (Z.to_nat (start - 1) + i)).
Proof.
  split; [by apply main_loop_from|]. split.
  - by rewrite !main_loop_from.
  - unfold from_position. split.
    + by rewrite length_drop.
    + intros i. by rewrite lookup_drop.
Qed.

(** * The document *)

Lemma processing_lines (self : Entry) (data : list string) :
  processing self [] = Ok data ->
  exists d t u p m, data = [d; t; u; p; m; "Cc"; "N"; "^"].
Proof.
  unfold processing.
  destruct (getitem self "Datum") as [datum|]; [|done]. cbn [bind].
  destruct (_amount_format self) as [amount|]; [|done]. cbn [bind].
  destruct (getitem self "Naam / Omschrijving") as [payee|]; [|done]. cbn [bind].
  destruct (_memo self) as [memo|]; [|done]. cbn [bind].
  intros [= <-]. by eexists _, _, _, _, _.
Qed.

Lemma built_terminated (q : QifEntry) :
  built q -> terminated (QifEntry_serialize q).
Proof.
  unfold built, QifEntry_init.
  destruct (processing (QifEntry_entry q) []) as [data|] eqn:Hp; [|done].
  cbn [bind]. intros [= Hq].
  destruct (processing_lines _ _ Hp) as (d & t & u & p & m & ->).
  unfold QifEntry_serialize. rewrite <-Hq. cbn [QifEntry_data].
  exists (Str.join nl [d; t; u; p; m; "Cc"; "N"]).
  apply (StrFacts.join_snoc nl d "^" [t; u; p; m; "Cc"; "N"]).
Qed.

Lemma QifEntry_init_built (entry : Entry) (q : QifEntry) :
  QifEntry_init entry = Ok q -> built q.
Proof.
  intros H. unfold built. pose proof H as H'. unfold QifEntry_init in H.
  destruct (processing entry []) as [data|]; [|done].
  cbn [bind] in H. injection H as <-. done.
Qed.

Lemma main_loop_built (rows : list (gmap string string)) (start : Z)
    (number : option Z) (c : Z) (qif qif' : QifEntries) :
  Forall built (QifEntries_entries qif) ->
  main_loop rows start number c qif = Ok qif' ->
  Forall built (QifEntries_entries qif').
Proof.
  revert c qif. induction rows as [|row rows IH]; intros c qif Hqif.
  - by intros [= <-].
  - cbn [main_loop]. destruct (Entry_init row) as [entry|]; [|done]. cbn [bind].
    destruct (c + 1 >=? start)%Z; [|by apply IH].
    unfold add_entry.
    destruct (QifEntry_init entry) as [q|] eqn:Hq; [|done]. cbn [bind].
    assert (Forall built (QifEntries_entries
              (mkQifEntries (QifEntries_entries qif ++ [q])))) as Hnew.
    { cbn. apply Forall_app. split; [done|].
      apply Forall_singleton. by apply QifEntry_init_built in Hq. }
    destruct (match number with
              | Some n => truthy_number number && (c + 1 >? start + n - 2)%Z
              | None => false
              end).
    + by intros [= <-].
    + by apply IH.
Qed.

Lemma serialize_eq (qif : QifEntries) :
  serialize qif
  = "!Type:Bank" +:+ prepend_all nl (QifEntry_serialize <$> QifEntries_entries qif).
Proof.
  unfold serialize.
  assert (forall l acc,
            fold_left (fun data e => data ++ [QifEntry_serialize e]) l acc
            = acc ++ (QifEntry_serialize <$> l)) as Hfold.
  { induction l as [|e l IH]; intros acc; simpl.
    - by rewrite app_nil_r.
    - by rewrite IH, <-app_assoc. }
  rewrite Hfold. apply StrFacts.join_cons.
Qed.

Lemma built_lines (q : QifEntry) :
  built q ->
  exists d t u p m,
    QifEntry_data q = [d; t; u; p; m; "Cc"; "N"; "^"] /\
    QifEntry_serialize q = Str.join nl [d; t; u; p; m; "Cc"; "N"] +:+ nl +:+ "^".
Proof.
  unfold built, QifEntry_init.
  destruct (processing (QifEntry_entry q) []) as [data|] eqn:Hp; [|done].
  cbn [bind]. intros [= Hq].
  destruct (processing_lines _ _ Hp) as (d & t & u & p & m & ->).
  exists d, t, u, p, m. unfold QifEntry_serialize. rewrite <-Hq.
  cbn [QifEntry_data]. split; [done|].
  apply (StrFacts.join_snoc nl d "^" [t; u; p; m; "Cc"; "N"]).
Qed.

(** C9. The text that [main] writes is that of the document [qif] which its
    loop returns: the header line "!Type:Bank" followed, each on a new line,
    by the blocks of the records of [qif], one block per record and in their
    order; and the block of every record is its eight lines, the last of
    which is a lone "^". *)
Theorem serialize_document (rows : list (gmap string string)) (start : Z)
    (number : option Z) (out : string) :
  main rows start number = Ok out ->
  exists qif,
    main_loop rows start number 0 QifEntries_init = Ok qif /\
    out = "!Type:Bank"
          +:+ prepend_all nl (QifEntry_serialize <$> QifEntries_entries qif) /\
    String.prefix "!Type:Bank" out = true /\
    Forall (fun q =>
              terminated (QifEntry_serialize q) /\
              exists d t u p m,
                QifEntry_data q = [d; t; u; p; m; "Cc"; "N"; "^"] /\
                QifEntry_serialize q
                = Str.join nl [d; t; u; p; m; "Cc"; "N"] +:+ nl +:+ "^")
           (QifEntries_entries qif).
Proof.
  unfold main.
  destruct (main_loop rows start number 0 QifEntries_init) as [qif|] eqn:Hloop;
    [|done].
  cbn [bind]. intros [= <-]. exists qif. rewrite serialize_eq.
  split; [done|]. split; [done|]. split.
  - apply StrFacts.prefix_app.
  - apply main_loop_built in Hloop; [|by apply Forall_nil].
    eapply Forall_impl; [done|]. intros q Hq. split.
    + by apply built_terminated.
    + by apply built_lines.
Qed.

Lemma serialize_document_witness :
  let out :=
    "!Type:Bank" +:+ nl +:+ "D31/01/2014" +:+ nl +:+ "T-50.00" +:+ nl +:+ "U-50.00"
    +:+ nl +:+ "PING>Main St" +:+ nl +:+ "MATM ING>Main St" +:+ nl +:+ "Cc"
    +:+ nl +:+ "N" +:+ nl +:+ "^" in
  main [atm_row; transfer_row] 1 (Some 1%Z) = Ok out /\
  exists qif,
    main_loop [atm_row; transfer_row] 1 (Some 1%Z) 0 QifEntries_init = Ok qif /\
    out = "!Type:Bank"
          +:+ prepend_all nl (QifEntry_serialize <$> QifEntries_entries qif) /\
    String.prefix "!Type:Bank" out = true /\
    Forall (fun q =>
              terminated (QifEntry_serialize q) /\
              exists d t u p m,
                QifEntry_data q = [d; t; u; p; m; "Cc"; "N"; "^"] /\
                QifEntry_serialize q
                = Str.join nl [d; t; u; p; m; "Cc"; "N"] +:+ nl +:+ "^")
           (QifEntries_entries qif).
Proof.
  split; [reflexivity|].
  apply (serialize_document [atm_row; transfer_row] 1 (Some 1%Z)). reflexivity.
Defined.

(** * The program on sample rows *)

Example memo_diversen_64 :
  _memo (entry_of "20140210" "Af" "1,00" "Diversen"
           "0123456789abcdefghijklmnopqrstuvwxyzABCDEFGHIJKLMNOPQRSTUVWXYZ+-*" "row")
  = Ok "0123456789abcdefghijklmnopqrstuvwxyzABCDEFGHIJKLMNOPQRSTUVWXYZ+-".
Proof. reflexivity. Qed.

Example memo_geldautomaat_notes :
  _memo (entry_of "20140131" "Af" "50,00" "Geldautomaat"
           "some remittance info longer than 32 chars exactly" "Shop")
  = Ok "ATM some remittance info longer than".
Proof. reflexivity. Qed.

Example memo_incasso_name :
  _memo (entry_of "20140205" "Af" "19,95" "Incasso"
           "SEPA Incasso Naam: Acme Corp Kenmerk: 123" "Acme Corp")
  = Ok "Transfer Acme Corp ".
Proof. reflexivity. Qed.

Example memo_unknown_category :
  _memo (entry_of "20140205" "Af" "19,95" "UnknownFutureCode" "notes" "payee")
  = Ok "notes payee".
Proof. reflexivity. Qed.

Example memo_verzamelbetaling_raises :
  _memo (entry_of "20140205" "Af" "19,95" "Verzamelbetaling" "Naam: Acme Corp" "payee")
  = Raise ValueError.
Proof. reflexivity. Qed.

Example main_missing_column :
  main [delete "Mededelingen" atm_row] 1 None = Raise (KeyError "Mededelingen").
Proof. reflexivity. Qed.

Example main_default_start :
  main_loop ten_rows 0 (Some 4%Z) 0 QifEntries_init
  = selects ten_rows 0 (numbered_row <$> ["1"; "2"; "3"]) QifEntries_init.
Proof. reflexivity. Qed.

(** * Further properties of the memo *)

Lemma length_strip (s : string) :
  String.length (Str.strip s) <= String.length s.
Proof.
  destruct (StrFacts.strip_spec s) as (a & b & Hs & _).
  rewrite Hs at 2. rewrite !StrFacts.length_app. lia.
Qed.

(** The strategies of the table and their keys. *)
Lemma memo_methods_cases (soort : string) :
  (soort = "Diversen" /\ subscript memo_methods soort = Ok _memo_diversen) \/
  ((soort = "Betaalautomaat" \/ soort = "Geldautomaat") /\
   subscript memo_methods soort = Ok _memo_geldautomaat) \/
  (soort = "Incasso" /\ subscript memo_methods soort = Ok _memo_incasso) \/
  ((soort = "Internetbankieren" \/ soort = "Overschrijving") /\
   subscript memo_methods soort = Ok _memo_internetbankieren) \/
  (soort = "Verzamelbetaling" /\
   subscript memo_methods soort = Ok _memo_verzamelbetaling) \/
  (subscript memo_methods soort = Raise (KeyError soort) /\
   ~ In soort ["Diversen"; "Betaalautomaat"; "Geldautomaat"; "Incasso";
               "Internetbankieren"; "Overschrijving"; "Verzamelbetaling"]).
Proof.
  unfold memo_methods. cbn [subscript].
  destruct (String.eqb_spec "Diversen" soort) as [<-|H1]; [by left|].
  destruct (String.eqb_spec "Betaalautomaat" soort) as [<-|H2];
    [right; left; split; [by left|done]|].
  destruct (String.eqb_spec "Geldautomaat" soort) as [<-|H3];
    [right; left; split; [by right|done]|].
  destruct (String.eqb_spec "Incasso" soort) as [<-|H4];
    [by right; right; left|].
  destruct (String.eqb_spec "Internetbankieren" soort) as [<-|H5];
    [right; right; right; left; split; [by left|done]|].
  destruct (String.eqb_spec "Overschrijving" soort) as [<-|H6];
    [right; right; right; left; split; [by right|done]|].
  destruct (String.eqb_spec "Verzamelbetaling" soort) as [<-|H7];
    [by right; right; right; right; left|].
  do 5 right. split; [done|]. simpl. intuition congruence.
Qed.

(** The labels of the table and their keys. *)
Lemma entry_types_cases (soort : string) :
  ((soort = "Geldautomaat" \/ soort = "Betaalautomaat") /\
   subscript entry_types soort = Ok "ATM") \/
  ((soort = "Internetbankieren" \/ soort = "Incasso" \/ soort = "Verzamelbetaling") /\
   subscript entry_types soort = Ok "Transfer") \/
  (soort = "Storting" /\ subscript entry_types soort = Ok "Deposit") \/
  (subscript entry_types soort = Raise (KeyError soort) /\
   ~ In soort ["Geldautomaat"; "Internetbankieren"; "Incasso";
               "Verzamelbetaling"; "Betaalautomaat"; "Storting"]).
Proof.
  unfold entry_types. cbn [subscript].
  destruct (String.eqb_spec "Geldautomaat" soort) as [<-|H1];
    [left; split; [by left|done]|].
  destruct (String.eqb_spec "Internetbankieren" soort) as [<-|H2];
    [right; left; split; [by left|done]|].
  destruct (String.eqb_spec "Incasso" soort) as [<-|H3];
    [right; left; split; [by right; left|done]|].
  destruct (String.eqb_spec "Verzamelbetaling" soort) as [<-|H4];
    [right; left; split; [by right; right|done]|].
  destruct (String.eqb_spec "Betaalautomaat" soort) as [<-|H5];
    [left; split; [by right|done]|].
  destruct (String.eqb_spec "Storting" soort) as [<-|H6];
    [by right; right; left|].
  do 3 right. split; [done|]. simpl. intuition congruence.
Qed.

Lemma memo_incasso_eq (notes payee : string) :
  _memo_incasso notes payee
  = if Str.startswith payee "SEPA Incasso" || Str.startswith notes "SEPA Incasso"
    then match Str.find "Naam: " notes, Str.find "Kenmerk: " notes with
         | Some s, Some e => Ok (Some (Str.slice notes (s + 6) e))
         | _, _ => Raise (Exception_ notes payee)
         end
    else Ok None.
Proof.
  unfold _memo_incasso. rewrite !index_find.
  destruct (Str.startswith payee "SEPA Incasso" || Str.startswith notes "SEPA Incasso");
    [|done].
  destruct (Str.find "Naam: " notes); [|done].
  by destruct (Str.find "Kenmerk: " notes).
Qed.

Lemma memo_verzamelbetaling_eq (notes payee : string) :
  _memo_verzamelbetaling notes payee
  = match Str.find "Naam: " notes, Str.find "Kenmerk: " notes with
    | Some s, Some e => Ok (Some (Str.slice notes (s + 6) e))
    | Some _, None => Raise ValueError
    | None, _ => Ok None
    end.
Proof.
  unfold _memo_verzamelbetaling, Str.contains. rewrite !index_find.
  destruct (Str.find "Naam: " notes); [|done].
  by destruct (Str.find "Kenmerk: " notes).
Qed.

(** What a strategy of the table may raise. *)
Lemma strategy_raises (soort notes payee : string) (strategy : memo_strategy) (e : exn) :
  subscript memo_methods soort = Ok strategy ->
  strategy notes payee = Raise e ->
  (soort = "Incasso" /\ e = Exception_ notes payee) \/
  (soort = "Verzamelbetaling" /\ e = ValueError).
Proof.
  intros Hs.
  destruct (memo_methods_cases soort)
    as [[-> H]|[[Hk H]|[[-> H]|[[Hk H]|[[-> H]|[H _]]]]]];
    rewrite H in Hs; try discriminate; injection Hs as <-.
  - done.
  - unfold _memo_geldautomaat.
    by destruct (Str.startswith payee "ING>" || Str.startswith payee "ING BANK>"
                 || Str.startswith payee "OPL. CHIPKNIP").
  - rewrite memo_incasso_eq.
    destruct (Str.startswith payee "SEPA Incasso" || Str.startswith notes "SEPA Incasso");
      [|done].
    destruct (Str.find "Naam: " notes); [destruct (Str.find "Kenmerk: " notes)|];
      try done; intros [= <-]; by left.
  - by rewrite memo_internetbankieren_eq.
  - rewrite memo_verzamelbetaling_eq.
    destruct (Str.find "Naam: " notes); [destruct (Str.find "Kenmerk: " notes)|];
      try done. intros [= <-]. by right.
Qed.

Lemma strategy_no_KeyError (soort notes payee : string) (strategy : memo_strategy) :
  subscript memo_methods soort = Ok strategy ->
  forall k, strategy notes payee <> Raise (KeyError k).
Proof.
  intros Hs k Hr.
  by destruct (strategy_raises _ _ _ _ _ Hs Hr) as [[_ ?]|[_ ?]].
Qed.

(** The memo of an entry in terms of the result of its strategy. *)
Lemma memo_of_strategy (self : Entry) (soort notes payee : string)
    (strategy : memo_strategy) (r : option string) :
  getitem self "Mutatiesoort" = Ok soort ->
  getitem self "Mededelingen" = Ok notes ->
  getitem self "Naam / Omschrijving" = Ok payee ->
  subscript memo_methods soort = Ok strategy ->
  strategy notes payee = Ok r ->
  _memo self
  = let memo := match r with
                | Some memo => memo
                | None => notes +:+ " " +:+ payee
                end in
    Ok match subscript entry_types soort with
       | Ok label => label +:+ " " +:+ memo
       | Raise _ => Str.strip memo
       end.
Proof.
  intros Hsoort Hnotes Hpayee Hs Hr.
  rewrite (memo_eq self _ _ _ Hsoort Hnotes Hpayee).
  rewrite (resolve_memo_strategy self _ _ _ Hnotes Hpayee _ Hs)
    by (by apply (strategy_no_KeyError soort)).
  rewrite Hr, (entry_type_eq self _ Hsoort). cbn [bind].
  destruct r; by destruct (subscript entry_types soort).
Qed.

(** X1. The memo of a Diversen entry is the first 64 characters of the notes
    without the whitespace at their two ends: the category has no label. *)
Theorem memo_diversen_spec (self : Entry) (notes payee : string) :
  getitem self "Mutatiesoort" = Ok "Diversen" ->
  getitem self "Mededelingen" = Ok notes ->
  getitem self "Naam / Omschrijving" = Ok payee ->
  _memo self = Ok (Str.strip (Str.upto notes 64)) /\
  String.length (Str.strip (Str.upto notes 64)) <= 64 /\
  (String.length notes <= 64 -> _memo self = Ok (Str.strip notes)).
Proof.
  intros Hsoort Hnotes Hpayee.
  assert (_memo self = Ok (Str.strip (Str.upto notes 64))) as Hm.
  { by rewrite (memo_of_strategy self _ _ _ _memo_diversen
                  (Some (Str.upto notes 64)) Hsoort Hnotes Hpayee). }
  split; [done|]. split.
  - etrans; [apply length_strip|]. rewrite StrFacts.length_upto. lia.
  - intros Hlen. rewrite Hm. do 2 f_equal.
    destruct (StrFacts.upto_app notes 64) as [rest Hrest].
    assert (String.length rest = 0) as Hz.
    { apply (f_equal String.length) in Hrest.
      rewrite StrFacts.length_app, StrFacts.length_upto in Hrest. lia. }
    destruct rest; [|done]. by rewrite StrFacts.app_nil_r in Hrest.
Qed.

Lemma memo_diversen_spec_witness :
  let self := entry_of "20140210" "Af" "1,00" "Diversen" "  kosten pakket  " "ING" in
  getitem self "Mutatiesoort" = Ok "Diversen" /\
  getitem self "Mededelingen" = Ok "  kosten pakket  " /\
  getitem self "Naam / Omschrijving" = Ok "ING" /\
  _memo self = Ok (Str.strip (Str.upto "  kosten pakket  " 64)).
Proof.
  repeat (split; [reflexivity|]).
  refine (proj1 (memo_diversen_spec
            (entry_of "20140210" "Af" "1,00" "Diversen" "  kosten pakket  " "ING")
            "  kosten pakket  " "ING" _ _ _)); reflexivity.
Defined.

(** X2. The memo of a Verzamelbetaling entry: without "Naam: " in the notes
    it is "Transfer" and the default text; with "Naam: " and "Kenmerk: " it is
    "Transfer" and the text between them; with "Naam: " but without
    "Kenmerk: " the memo raises [ValueError], which nothing catches. *)
Theorem memo_verzamelbetaling_spec (self : Entry) (notes payee : string) :
  getitem self "Mutatiesoort" = Ok "Verzamelbetaling" ->
  getitem self "Mededelingen" = Ok notes ->
  getitem self "Naam / Omschrijving" = Ok payee ->
  (absent "Naam: " notes ->
   _memo self = Ok ("Transfer" +:+ " " +:+ notes +:+ " " +:+ payee)) /\
  (forall s e, first_at "Naam: " notes s -> first_at "Kenmerk: " notes e ->
   _memo self = Ok ("Transfer" +:+ " " +:+ Str.slice notes (s + 6) e)) /\
  (forall s, first_at "Naam: " notes s -> absent "Kenmerk: " notes ->
   _memo self = Raise ValueError).
Proof.
  intros Hsoort Hnotes Hpayee. split; [|split].
  - intros Hn%StrFacts.find_absent.
    rewrite (memo_of_strategy self _ _ _ _memo_verzamelbetaling None
               Hsoort Hnotes Hpayee); [done..|].
    by rewrite memo_verzamelbetaling_eq, Hn.
  - intros s e Hn%StrFacts.find_first_at He%StrFacts.find_first_at.
    rewrite (memo_of_strategy self _ _ _ _memo_verzamelbetaling
               (Some (Str.slice notes (s + 6) e)) Hsoort Hnotes Hpayee); [done..|].
    by rewrite memo_verzamelbetaling_eq, Hn, He.
  - intros s Hn%StrFacts.find_first_at He%StrFacts.find_absent.
    rewrite (memo_eq self _ _ _ Hsoort Hnotes Hpayee).
    unfold resolve_memo. cbn [subscript memo_methods String.eqb Ascii.eqb Bool.eqb bind].
    by rewrite memo_verzamelbetaling_eq, Hn, He.
Qed.

Lemma memo_verzamelbetaling_spec_witness :
  let self := entry_of "20140205" "Af" "19,95" "Verzamelbetaling"
                       "Naam: Acme Corp" "Acme" in
  getitem self "Mutatiesoort" = Ok "Verzamelbetaling" /\
  getitem self "Mededelingen" = Ok "Naam: Acme Corp" /\
  getitem self "Naam / Omschrijving" = Ok "Acme" /\
  _memo self = Raise ValueError.
Proof.
  repeat (split; [reflexivity|]).
  refine (proj2 (proj2 (memo_verzamelbetaling_spec
            (entry_of "20140205" "Af" "19,95" "Verzamelbetaling"
                      "Naam: Acme Corp" "Acme")
            "Naam: Acme Corp" "Acme" _ _ _)) 0 _ _); try reflexivity.
  - apply StrFacts.find_first_at. reflexivity.
  - apply StrFacts.find_absent. reflexivity.
Defined.

(** X3. The memo of an Incasso entry whose payee or notes start with
    "SEPA Incasso" and whose notes hold both markers is "Transfer", a space
    and the text from just after the first "Naam: " up to the first
    "Kenmerk: ", untrimmed: for notes [pre ++ "Naam: " ++ name ++ "Kenmerk: "
    ++ post] cut at those places the text is [name], and it is empty when
    "Kenmerk: " does not come after the name marker. *)
Theorem memo_incasso_extracts (self : Entry) (notes payee : string) (s e : nat) :
  getitem self "Mutatiesoort" = Ok "Incasso" ->
  getitem self "Mededelingen" = Ok notes ->
  getitem self "Naam / Omschrijving" = Ok payee ->
  Str.startswith payee "SEPA Incasso" || Str.startswith notes "SEPA Incasso" = true ->
  first_at "Naam: " notes s ->
  first_at "Kenmerk: " notes e ->
  _memo self = Ok ("Transfer" +:+ " " +:+ Str.slice notes (s + 6) e) /\
  (forall pre name post,
     notes = pre +:+ "Naam: " +:+ name +:+ "Kenmerk: " +:+ post ->
     String.length pre = s -> String.length pre + 6 + String.length name = e ->
     Str.slice notes (s + 6) e = name) /\
  (e <= s + 6 -> Str.slice notes (s + 6) e = "").
Proof.
  intros Hsoort Hnotes Hpayee Hsepa Hn%StrFacts.find_first_at He%StrFacts.find_first_at.
  split; [|split].
  - rewrite (memo_of_strategy self _ _ _ _memo_incasso
               (Some (Str.slice notes (s + 6) e)) Hsoort Hnotes Hpayee); [done..|].
    by rewrite memo_incasso_eq, Hsepa, Hn, He.
  - intros pre name post -> <- <-.
    apply (StrFacts.slice_between pre "Naam: " name "Kenmerk: " post).
  - apply StrFacts.slice_empty.
Qed.

Lemma memo_incasso_extracts_witness :
  let notes := "SEPA Incasso Naam: Acme Corp Kenmerk: 123" in
  let self := entry_of "20140205" "Af" "19,95" "Incasso" notes "Acme" in
  getitem self "Mutatiesoort" = Ok "Incasso" /\
  Str.find "Naam: " notes = Some 13 /\
  Str.find "Kenmerk: " notes = Some 29 /\
  _memo self = Ok ("Transfer" +:+ " " +:+ Str.slice notes (13 + 6) 29).
Proof.
  repeat (split; [reflexivity|]).
  refine (proj1 (memo_incasso_extracts
            (entry_of "20140205" "Af" "19,95" "Incasso"
                      "SEPA Incasso Naam: Acme Corp Kenmerk: 123" "Acme")
            "SEPA Incasso Naam: Acme Corp Kenmerk: 123" "Acme" 13 29
            _ _ _ _ _ _)); try reflexivity.
  - apply StrFacts.find_first_at. reflexivity.
  - apply StrFacts.find_first_at. reflexivity.
Defined.

(** X4. For a category without a memo strategy the memo is built from the
    default text, notes + space + payee: "Deposit", a space and the text for
    Storting, and the text without the whitespace at its ends for every
    other such category. *)
Theorem memo_without_strategy (self : Entry) (soort notes payee : string) :
  getitem self "Mutatiesoort" = Ok soort ->
  getitem self "Mededelingen" = Ok notes ->
  getitem self "Naam / Omschrijving" = Ok payee ->
  ~ In soort ["Diversen"; "Betaalautomaat"; "Geldautomaat"; "Incasso";
              "Internetbankieren"; "Overschrijving"; "Verzamelbetaling"] ->
  resolve_memo self soort notes payee = Ok (notes +:+ " " +:+ payee) /\
  (soort = "Storting" ->
   _memo self = Ok ("Deposit" +:+ " " +:+ notes +:+ " " +:+ payee)) /\
  (soort <> "Storting" ->
   _memo self = Ok (Str.strip (notes +:+ " " +:+ payee))).
Proof.
  intros Hsoort Hnotes Hpayee Hnot.
  assert (subscript memo_methods soort = Raise (KeyError soort)) as Hs.
  { destruct (memo_methods_cases soort)
      as [[-> _]|[[[-> | ->] _]|[[-> _]|[[[-> | ->] _]|[[-> _]|[H _]]]]]];
      try done; exfalso; apply Hnot; simpl; tauto. }
  assert (resolve_memo self soort notes payee = Ok (notes +:+ " " +:+ payee)) as Hr.
  { unfold resolve_memo. rewrite Hs. cbn [bind except_KeyError].
    apply (default_memo_eq self _ _ Hnotes Hpayee). }
  split; [done|].
  rewrite (memo_eq self _ _ _ Hsoort Hnotes Hpayee), Hr.
  rewrite (entry_type_eq self _ Hsoort). cbn [bind].
  split.
  - by intros ->.
  - intros Hne.
    destruct (entry_types_cases soort)
      as [[[-> | ->] _]|[[[-> | [-> | ->]] _]|[[-> _]|[-> _]]]];
      try done; exfalso; apply Hnot; simpl; tauto.
Qed.

Lemma memo_without_strategy_witness :
  let self := entry_of "20140207" "Bij" "100,00" "Storting" " kantoor Utrecht" "Storting" in
  getitem self "Mutatiesoort" = Ok "Storting" /\
  getitem self "Mededelingen" = Ok " kantoor Utrecht" /\
  getitem self "Naam / Omschrijving" = Ok "Storting" /\
  _memo self = Ok "Deposit  kantoor Utrecht Storting".
Proof.
  repeat (split; [reflexivity|]).
  refine (proj1 (proj2 (memo_without_strategy
            (entry_of "20140207" "Bij" "100,00" "Storting" " kantoor Utrecht" "Storting")
            "Storting" " kantoor Utrecht" "Storting" _ _ _ _)) _); try reflexivity.
  simpl. intros H. by repeat destruct H as [H|H].
Defined.

(** X5. The two bank-transfer categories share a strategy but not a label:
    with the text [r] of the strategy, or the default text when it has no
    result, the memo is "Transfer", a space and the text for
    Internetbankieren, and the text without the whitespace at its ends for
    Overschrijving. *)
Theorem memo_bank_transfer (self : Entry) (soort notes payee : string)
    (r : option string) :
  getitem self "Mutatiesoort" = Ok soort ->
  getitem self "Mededelingen" = Ok notes ->
  getitem self "Naam / Omschrijving" = Ok payee ->
  internetbankieren_memo notes r ->
  let text := match r with
              | Some memo => memo
              | None => notes +:+ " " +:+ payee
              end in
  (soort = "Internetbankieren" -> _memo self = Ok ("Transfer" +:+ " " +:+ text)) /\
  (soort = "Overschrijving" -> _memo self = Ok (Str.strip text)).
Proof.
  intros Hsoort Hnotes Hpayee Hr text.
  apply (memo_internetbankieren_complete notes payee) in Hr.
  split; intros ->.
  - by rewrite (memo_of_strategy self _ _ _ _memo_internetbankieren r
                  Hsoort Hnotes Hpayee).
  - by rewrite (memo_of_strategy self _ _ _ _memo_internetbankieren r
                  Hsoort Hnotes Hpayee).
Qed.

Lemma memo_bank_transfer_witness :
  let notes := "Naam: J. Jansen Omschrijving: huur IBAN: NL01" in
  let self := entry_of "20140203" "Bij" "1250,00" "Overschrijving" notes "J. Jansen" in
  getitem self "Mutatiesoort" = Ok "Overschrijving" /\
  Str.find "Naam: " notes = Some 0 /\
  Str.find "Omschrijving: " notes = Some 16 /\
  _memo self = Ok (Str.strip (Str.slice notes (0 + 6) 16)).
Proof.
  repeat (split; [reflexivity|]).
  refine (proj2 (memo_bank_transfer
            (entry_of "20140203" "Bij" "1250,00" "Overschrijving"
                      "Naam: J. Jansen Omschrijving: huur IBAN: NL01" "J. Jansen")
            "Overschrijving" "Naam: J. Jansen Omschrijving: huur IBAN: NL01"
            "J. Jansen" (Some _) _ _ _ (ib_omschrijving _ 0 16 _ _)) _);
    try reflexivity.
  - apply StrFacts.find_first_at. reflexivity.
  - apply StrFacts.find_first_at. reflexivity.
Defined.

(** X6. The classifier never raises, not even for an entry without the
    category column: it answers "ATM", "Transfer", "Deposit" or no label, and
    no label when the column is missing. *)
Theorem entry_type_total (self : Entry) :
  exists ty,
    _entry_type self = Ok ty /\
    (ty = None \/ ty = Some "ATM" \/ ty = Some "Transfer" \/ ty = Some "Deposit") /\
    (Entry_data self !! "Mutatiesoort" = None -> ty = None).
Proof.
  unfold _entry_type, getitem.
  destruct (Entry_data self !! "Mutatiesoort") as [soort|]; cbn [bind].
  - destruct (entry_types_cases soort) as [[_ H]|[[_ H]|[[_ H]|[H _]]]];
      rewrite H; eexists; (split; [reflexivity|]); split; try done; tauto.
  - exists None. cbn. tauto.
Qed.




(** * Further properties of the records and of the loop *)

Lemma QifEntry_init_entry (entry : Entry) (q : QifEntry) :
  QifEntry_init entry = Ok q -> QifEntry_entry q = entry.
Proof.
  unfold QifEntry_init. destruct (processing entry []); [|done].
  cbn [bind]. by intros [= <-].
Qed.

Lemma amount_format_eq (self : Entry) (af_bij amount : string) :
  getitem self "Af Bij" = Ok af_bij ->
  getitem self "amount" = Ok amount ->
  _amount_format self = Ok (sign_of af_bij +:+ amount).
Proof.
  intros Hdir Hamount. unfold _amount_format, sign_of.
  rewrite Hdir, Hamount. cbn [bind]. by destruct (String.eqb af_bij "Bij").
Qed.

(** X8. A record is built from an entry that has the date, direction, amount
    and payee fields and whose memo does not raise; its lines are then the
    date line, the signed amount twice (as T and as U), the payee, the memo
    and the three fixed lines "Cc", "N" and "^", in this order. *)
Theorem record_lines (self : Entry) (datum af_bij amount payee memo : string) :
  getitem self "Datum" = Ok datum ->
  getitem self "Af Bij" = Ok af_bij ->
  getitem self "amount" = Ok amount ->
  getitem self "Naam / Omschrijving" = Ok payee ->
  _memo self = Ok memo ->
  exists q,
    QifEntry_init self = Ok q /\
    QifEntry_entry q = self /\
    QifEntry_data q
    = [ "D" +:+ _date_format datum;
        "T" +:+ sign_of af_bij +:+ amount;
        "U" +:+ sign_of af_bij +:+ amount;
        "P" +:+ payee;
        "M" +:+ memo;
        "Cc"; "N"; "^" ].
Proof.
  intros Hdatum Hdir Hamount Hpayee Hmemo.
  unfold QifEntry_init, processing.
  rewrite Hdatum, (amount_format_eq self _ _ Hdir Hamount), Hpayee, Hmemo.
  cbn [bind]. by eexists.
Qed.

Lemma record_lines_witness :
  let self := entry_of "20140131" "Af" "50,00" "Geldautomaat"
                       "31-01-2014 12:01 Pasvolgnr: 001" "ING>Main St" in
  _memo self = Ok "ATM ING>Main St" /\
  exists q,
    QifEntry_init self = Ok q /\
    QifEntry_entry q = self /\
    QifEntry_data q
    = [ "D" +:+ _date_format "20140131";
        "T" +:+ sign_of "Af" +:+ "50.00";
        "U" +:+ sign_of "Af" +:+ "50.00";
        "P" +:+ "ING>Main St";
        "M" +:+ "ATM ING>Main St";
        "Cc"; "N"; "^" ].
Proof.
  split; [reflexivity|].
  apply (record_lines
           (entry_of "20140131" "Af" "50,00" "Geldautomaat"
                     "31-01-2014 12:01 Pasvolgnr: 001" "ING>Main St")
           "20140131" "Af" "50.00" "ING>Main St" "ATM ING>Main St");
    reflexivity.
Defined.

(** ** The window for any start and any count but 0 *)

Lemma main_loop_counted (start M : Z) (rows : list (gmap string string))
    (c : Z) (qif : QifEntries) :
  M <> 0%Z ->
  (start - 1 <= c)%Z ->
  main_loop rows start (Some M) c qif
  = let! added :=
      mapM convert (take (Z.to_nat (Z.max 1 (start + M - 1 - c))) rows) in
    Ok (mkQifEntries (QifEntries_entries qif ++ added)).
Proof.
  intros HM. revert c qif. induction rows as [|row rows IH]; intros c qif Hc.
  - rewrite take_nil. cbn. rewrite app_nil_r. by destruct qif.
  - destruct (Z.to_nat (Z.max 1 (start + M - 1 - c))) as [|k] eqn:Hk; [lia|].
    cbn [take main_loop mapM]. unfold convert at 1, add_entry.
    destruct (Entry_init row) as [entry|]; [|done]. cbn [bind].
    replace (c + 1 >=? start)%Z with true by lia.
    destruct (QifEntry_init entry) as [q|]; [|done]. cbn [bind].
    unfold truthy_number. replace (M =? 0)%Z with false by lia. cbn [negb andb].
    destruct (c + 1 >? start + M - 2)%Z eqn:Hbreak.
    + assert (k = 0) as -> by lia. by rewrite take_0.
    + rewrite IH by lia. cbn [QifEntries_entries].
      replace (Z.to_nat (Z.max 1 (start + M - 1 - (c + 1)))) with k by lia.
      destruct (mapM convert (take k rows)) as [added|]; [|done]. cbn [bind].
      by rewrite <-app_assoc.
Qed.

(** X9. With a count [M] other than 0 the loop always adds at least one row
    when there is one at the start position. For a start below 1, which
    includes the default start 0, it adds the first [start + M - 1] rows of
    the input, one row at least: with start 0 and count [M >= 2], [M - 1]
    rows. For a start from 1 on it adds [M] rows from the start position, and
    a single row when [M] is negative. *)
Theorem window_any_count (rows : list (gmap string string)) (start M : Z) :
  M <> 0%Z ->
  ((start <= 0)%Z ->
   main_loop rows start (Some M) 0 QifEntries_init
   = selects rows start (take (Z.to_nat (Z.max 1 (start + M - 1))) rows)
             QifEntries_init) /\
  ((1 <= start)%Z ->
   main_loop rows start (Some M) 0 QifEntries_init
   = selects rows start
             (take (Z.to_nat (Z.max 1 M)) (drop (Z.to_nat (start - 1)) rows))
             QifEntries_init).
Proof.
  intros HM. split; intros Hstart.
  - rewrite main_loop_counted by lia. unfold selects.
    replace (Z.to_nat (start - 1)) with 0 by lia. rewrite take_0. cbn [mapM bind].
    do 3 f_equal. lia.
  - rewrite main_loop_skip. unfold selects.
    replace (Z.to_nat (start - 1 - 0)) with (Z.to_nat (start - 1)) by lia.
    destruct (mapM Entry_init (take (Z.to_nat (start - 1)) rows)); [|done].
    cbn [bind]. rewrite main_loop_counted by lia. do 3 f_equal. lia.
Qed.

Lemma window_any_count_witness :
  (4 <> 0)%Z /\ (0 <= 0)%Z /\
  take (Z.to_nat (Z.max 1 (0 + 4 - 1))) ten_rows
  = numbered_row <$> ["1"; "2"; "3"] /\
  main_loop ten_rows 0 (Some 4%Z) 0 QifEntries_init
  = selects ten_rows 0 (take (Z.to_nat (Z.max 1 (0 + 4 - 1))) ten_rows)
            QifEntries_init.
Proof.
  split; [lia|]. split; [lia|]. split; [reflexivity|].
  refine (proj1 (window_any_count ten_rows 0 4 _) _); lia.
Defined.

(** ** Rows outside the window *)


Lemma Entry_init_None (row : gmap string string) :
  row !! "Bedrag (EUR)" = None ->
  Entry_init row = Raise (KeyError "Bedrag (EUR)").
Proof. intros H. unfold Entry_init, _clean_up. by rewrite H. Qed.

Lemma Entry_init_Raise (row : gmap string string) (e : exn) :
  Entry_init row = Raise e -> e = KeyError "Bedrag (EUR)".
Proof.
  unfold Entry_init, _clean_up. destruct (row !! "Bedrag (EUR)"); cbn [bind];
    congruence.
Qed.

Lemma mapM_Entry_init_Raise (rows : list (gmap string string)) (e : exn) :
  mapM Entry_init rows = Raise e -> e = KeyError "Bedrag (EUR)".
Proof.
  induction rows as [|row rows IH]; [done|]. cbn [mapM].
  destruct (Entry_init row) eqn:Hr; cbn [bind].
  - destruct (mapM Entry_init rows); cbn [bind]; [done|].
    intros [= <-]. by apply IH.
  - intros [= <-]. by apply Entry_init_Raise in Hr.
Qed.

Lemma mapM_Entry_init_missing (rows : list (gmap string string)) (i : nat)
    (row : gmap string string) :
  rows !! i = Some row -> row !! "Bedrag (EUR)" = None ->
  mapM Entry_init rows = Raise (KeyError "Bedrag (EUR)").
Proof.
  revert i. induction rows as [|r rows IH]; intros [|i]; try done.
  - intros [= ->] Hrow. cbn [mapM]. by rewrite (Entry_init_None _ Hrow).
  - intros Hi Hrow. cbn [mapM]. cbn in Hi.
    destruct (Entry_init r) eqn:Hr; cbn [bind].
    + by rewrite (IH i Hi Hrow).
    + by rewrite (Entry_init_Raise _ _ Hr).
Qed.


(** X10. A row before the start position is not converted but it is still
    read: when such a row has no amount column, [main] raises [KeyError] for
    "Bedrag (EUR)", whatever the count. *)
Theorem skipped_row_is_read (rows : list (gmap string string)) (start : Z)
    (number : option Z) (i : nat) (row : gmap string string) :
  rows !! i = Some row ->
  (Z.of_nat i + 1 < start)%Z ->
  row !! "Bedrag (EUR)" = None ->
  main rows start number = Raise (KeyError "Bedrag (EUR)").
Proof.
  intros Hi Hpos Hrow. unfold main. rewrite main_loop_skip.
  assert (mapM Entry_init (take (Z.to_nat (start - 1 - 0)) rows)
          = Raise (KeyError "Bedrag (EUR)")) as ->; [|done].
  apply (mapM_Entry_init_missing _ i row); [|done].
  rewrite lookup_take_lt by lia. done.
Qed.

Lemma skipped_row_is_read_witness :
  let rows := [atm_row; delete "Bedrag (EUR)" atm_row; transfer_row] in
  rows !! 1 = Some (delete "Bedrag (EUR)" atm_row) /\
  (Z.of_nat 1 + 1 < 3)%Z /\
  delete "Bedrag (EUR)" atm_row !! "Bedrag (EUR)" = None /\
  main rows 3 (Some 1%Z) = Raise (KeyError "Bedrag (EUR)").
Proof.
  split; [reflexivity|]. split; [lia|]. split; [reflexivity|].
  apply (skipped_row_is_read
           [atm_row; delete "Bedrag (EUR)" atm_row; transfer_row] 3 (Some 1%Z)
           1 (delete "Bedrag (EUR)" atm_row)); [reflexivity|lia|reflexivity].
Defined.

(** X11. The rows after the last row of the window are never read: for a
    start [N >= 1] and a count [M >= 1] reached by the input, whatever
    follows position [N + M - 1] has no effect on the result of [main], not
    even a row that would raise. *)
Theorem rows_after_window (rows rest : list (gmap string string)) (N M : Z) :
  (1 <= N)%Z -> (1 <= M)%Z ->
  (N + M - 1 <= Z.of_nat (length rows))%Z ->
  main (rows ++ rest) N (Some M) = main rows N (Some M).
Proof.
  intros HN HM Hlen. unfold main.
  rewrite !main_loop_window by done. unfold selects, window.
  rewrite take_app_le by lia.
  rewrite drop_app_le by lia.
  rewrite take_app_le by (rewrite length_drop; lia). done.
Qed.

Lemma rows_after_window_witness :
  (1 <= 1)%Z /\ (1 <= 2)%Z /\
  (1 + 2 - 1 <= Z.of_nat (length [atm_row; transfer_row]))%Z /\
  main ([atm_row; transfer_row] ++ [∅]) 1 (Some 2%Z)
  = main [atm_row; transfer_row] 1 (Some 2%Z).
Proof.
  split; [lia|]. split; [lia|]. split; [simpl; lia|].
  apply (rows_after_window [atm_row; transfer_row] [∅] 1 2); simpl; lia.
Defined.



(** ** Conversion without an exception *)






(** ** The records of the document *)

Lemma mapM_convert_entries (rows : list (gmap string string)) (qs : list QifEntry) :
  mapM convert rows = Ok qs ->
  mapM Entry_init rows = Ok (QifEntry_entry <$> qs) /\ length qs = length rows.
Proof.
  revert qs. induction rows as [|row rows IH]; intros qs.
  - by intros [= <-].
  - cbn [mapM]. unfold convert at 1.
    destruct (Entry_init row) as [entry|]; [|done]. cbn [bind].
    destruct (QifEntry_init entry) as [q|] eqn:Hq; [|done]. cbn [bind].
    destruct (mapM convert rows) as [qs'|]; [|done]. cbn [bind].
    intros [= <-]. destruct (IH qs' eq_refl) as [-> Hlen]. cbn.
    by rewrite (QifEntry_init_entry _ _ Hq), Hlen.
Qed.

(** X14. When the loop ends without an exception for a start [N >= 1] and a
    count [M >= 1], the document holds one record for each row of the window
    and no other, in the order of the input, each built from the entry of its
    row: [M] records, or as many as the input has from position [N] on. *)
Theorem window_records (rows : list (gmap string string)) (N M : Z)
    (qif : QifEntries) :
  (1 <= N)%Z -> (1 <= M)%Z ->
  main_loop rows N (Some M) 0 QifEntries_init = Ok qif ->
  mapM Entry_init (window rows N M)
  = Ok (QifEntry_entry <$> QifEntries_entries qif) /\
  length (QifEntries_entries qif)
  = Nat.min (Z.to_nat M) (length rows - Z.to_nat (N - 1)) /\
  Forall built (QifEntries_entries qif).
Proof.
  intros HN HM Hloop.
  pose proof (main_loop_built _ _ _ _ QifEntries_init _ (Forall_nil_2 _) Hloop)
    as Hbuilt.
  rewrite main_loop_window in Hloop by done. unfold selects in Hloop.
  destruct (mapM Entry_init (take (Z.to_nat (N - 1)) rows)); [|done].
  cbn [bind] in Hloop.
  destruct (mapM convert (window rows N M)) as [qs|] eqn:Hqs; [|done].
  cbn in Hloop. injection Hloop as <-. cbn [QifEntries_entries].
  destruct (mapM_convert_entries _ _ Hqs) as [He Hlen].
  repeat split; [done| |done].
  rewrite Hlen. unfold window. by rewrite length_take, length_drop.
Qed.

Lemma window_records_witness :
  (1 <= 3)%Z /\ (1 <= 4)%Z /\
  exists qif,
    main_loop ten_rows 3 (Some 4%Z) 0 QifEntries_init = Ok qif /\
    mapM Entry_init (window ten_rows 3 4)
    = Ok (QifEntry_entry <$> QifEntries_entries qif) /\
    length (QifEntries_entries qif)
    = Nat.min (Z.to_nat 4) (length ten_rows - Z.to_nat (3 - 1)) /\
    Forall built (QifEntries_entries qif).
Proof.
  split; [lia|]. split; [lia|]. eexists. split; [reflexivity|].
  apply (window_records ten_rows 3 4); [lia|lia|reflexivity].
Defined.

(** ** The name of the output file *)

Lemma substring_0_length (s : string) :
  String.substring 0 (String.length s) s = s.
Proof. induction s as [|c s IH]; [done|]. simpl. by rewrite IH. Qed.

Lemma substring_split (s : string) (n : nat) :
  s = String.substring 0 n s +:+ String.substring n (String.length s - n) s.
Proof.
  revert n. induction s as [|c s IH]; intros [|n].
  - done.
  - done.
  - rewrite Nat.sub_0_r, substring_0_length. by destruct (String.length _).
  - simpl. rewrite StrFacts.app_cons. by rewrite <-IH.
Qed.

Lemma endswith_app (base suffix : string) : endswith (base +:+ suffix) suffix = true.
Proof.
  unfold endswith. rewrite StrFacts.length_app.
  replace (String.length base + String.length suffix - String.length suffix)
    with (String.length base) by lia.
  rewrite StrFacts.substring_skip.
  rewrite <-(StrFacts.app_nil_r suffix) at 2.
  rewrite StrFacts.substring_0_app. apply String.eqb_refl.
Qed.

Lemma endswith_inv (s suffix : string) :
  endswith s suffix = true ->
  s = drop_last s (String.length suffix) +:+ suffix.
Proof.
  unfold endswith, drop_last, Str.upto, Str.slice. rewrite Nat.sub_0_r.
  intros H%String.eqb_eq.
  destruct (decide (String.length suffix <= String.length s)) as [Hle|Hgt].
  - rewrite (substring_split s (String.length s - String.length suffix)) at 1.
    replace (String.length s - (String.length s - String.length suffix))
      with (String.length suffix) by lia.
    by rewrite H.
  - replace (String.length s - String.length suffix) with 0 in * by lia.
    apply (f_equal String.length) in H.
    rewrite StrFacts.length_substring in H. lia.
Qed.

Lemma drop_last_app (base suffix : string) :
  drop_last (base +:+ suffix) (String.length suffix) = base.
Proof.
  unfold drop_last, Str.upto, Str.slice. rewrite Nat.sub_0_r, StrFacts.length_app.
  replace (String.length base + String.length suffix - String.length suffix)
    with (String.length base) by lia.
  apply StrFacts.substring_0_app.
Qed.

(** X15. The output file of "base.csv" is "base.qif", and the output file of
    a name that does not end in ".csv" is the name with ".qif" appended; in
    both cases the name ends in ".qif" and differs from the name of the
    input, so the input file is never the one written. *)
Theorem output_file_spec (input_filename : string) :
  (forall base, input_filename = base +:+ ".csv" ->
     output_file input_filename = base +:+ ".qif") /\
  (endswith input_filename ".csv" = false ->
     output_file input_filename = input_filename +:+ ".qif") /\
  endswith (output_file input_filename) ".qif" = true /\
  output_file input_filename <> input_filename.
Proof.
  split; [|split; [|split]].
  - intros base ->. unfold output_file. rewrite endswith_app.
    pose proof (drop_last_app base ".csv") as Hbase.
    change (String.length ".csv") with 4 in Hbase. by rewrite Hbase.
  - intros H. unfold output_file. by rewrite H.
  - unfold output_file. destruct (endswith input_filename ".csv"); apply endswith_app.
  - unfold output_file. destruct (endswith input_filename ".csv") eqn:He.
    + apply endswith_inv in He. change (String.length ".csv") with 4 in He.
      rewrite He at 2.
      intros H%StrFacts.app_inv_head. done.
    + intros H%(f_equal String.length). rewrite StrFacts.length_app in H.
      cbn in H. lia.
Qed.

(** ** The date *)

(** X16. On dates of eight characters the reformatting loses nothing: two
    such dates with the same DD/MM/YYYY text are the same date. *)
Theorem date_format_injective (s t : string) :
  String.length s = 8 -> String.length t = 8 ->
  _date_format s = _date_format t -> s = t.
Proof.
  intros Hs Ht.
  do 9 (destruct s as [|? s]; try discriminate Hs).
  do 9 (destruct t as [|? t]; try discriminate Ht).
  cbv [_date_format Str.slice String.substring String.append Nat.sub].
  intros [= -> -> -> -> -> -> -> ->]. done.
Qed.

Lemma date_format_injective_witness :
  String.length "20140131" = 8 /\
  _date_format "20140131" = "31/01/2014" /\
  "20140131" = "20140131".
Proof.
  split; [reflexivity|]. split; [reflexivity|].
  apply (date_format_injective "20140131" "20140131"); reflexivity.
Defined.
